(** * Environment-Detector: the native detection engine

    A shallow embedding of [app/src/main/cpp/security_native.cpp] and
    [app/src/main/cpp/anti_hook.cpp].

    - The operating system is a read-only record [System] of the surfaces
      the probes consult: readable files, [stat] results, writable paths,
      system properties, the environment, directory listings, the dynamic
      linker and the process's memory.
    - The process keeps the two globals of [anti_hook.cpp] ([g_jvm],
      [g_context]), the table of JNI global references and a log of every
      call made on a system surface.
    - C++ code is written in a small monad [M] that threads the process
      state, appends to the log and propagates C++ exceptions. *)

From Stdlib Require Import ZArith Ascii String List Lia Bool.
From stdpp Require Import base option gmap strings list.

Local Open Scope string_scope.
Local Open Scope list_scope.
Local Open Scope Z_scope.

(** ** C and C++ strings *)

Module Str.

(** A [std::string] is a Rocq [string]; it may hold NUL characters. A C
    string is what [c_str] keeps of it: the characters before the first
    NUL. *)
Fixpoint c_str (s : string) : string :=
  match s with
  | EmptyString => EmptyString
  | String c t => if Ascii.eqb c Ascii.zero then EmptyString else String c (c_str t)
  end.

(** [std::string::find(pat)]: the least position at which [pat] occurs,
    [None] for [npos]. *)
Fixpoint find (s pat : string) : option nat :=
  if String.prefix pat s then Some 0%nat
  else match s with
       | EmptyString => None
       | String _ t => option_map S (find t pat)
       end.

(** [s.find(pat) != std::string::npos] *)
Definition contains (s pat : string) : bool :=
  match find s pat with Some _ => true | None => false end.

(** [s.find(pat) == 0] *)
Definition find_is_0 (s pat : string) : bool :=
  match find s pat with Some O => true | _ => false end.

(** [strstr(hay, needle) != nullptr] on C strings. *)
Definition strstr (hay needle : string) : bool :=
  contains (c_str hay) (c_str needle).

(** [strcmp(a, b) == 0] on C strings. *)
Definition strcmp_eq (a b : string) : bool :=
  String.eqb (c_str a) (c_str b).

(** [s.substr(pos)] for [pos <= s.size()]. *)
Fixpoint substr (pos : nat) (s : string) : string :=
  match pos, s with
  | O, _ => s
  | S k, String _ t => substr k t
  | S _, EmptyString => EmptyString
  end.

(** The characters of [s] before the first [delim]: what one
    [std::getline(stream, line, delim)] extracts from a fresh stream. *)
Fixpoint take_until (delim : ascii) (s : string) : string :=
  match s with
  | EmptyString => EmptyString
  | String c t => if Ascii.eqb c delim then EmptyString else String c (take_until delim t)
  end.

Definition newline : ascii := "010"%char.

(** The successive results of [std::getline(stream, line)] until it
    fails: the text split at newlines, without a last empty line. *)
Fixpoint getlines (s : string) : list string :=
  match s with
  | EmptyString => []
  | String c t =>
      if Ascii.eqb c newline then EmptyString :: getlines t
      else match getlines t with
           | [] => [String c EmptyString]
           | l :: ls => String c l :: ls
           end
  end.

(** [fgets(buf, n + 1, fp)] on a fresh stream: at most [n] characters,
    stopping after a newline. *)
Fixpoint fgets (n : nat) (s : string) : string :=
  match n, s with
  | O, _ => EmptyString
  | _, EmptyString => EmptyString
  | S k, String c t =>
      String c (if Ascii.eqb c newline then EmptyString else fgets k t)
  end.

(** [snprintf(buf, n + 1, ...)]: the formatted text cut to [n] characters. *)
Fixpoint truncate (n : nat) (s : string) : string :=
  match n, s with
  | O, _ => EmptyString
  | _, EmptyString => EmptyString
  | S k, String c t => String c (truncate k t)
  end.

(** [s[0] == c], where the character after the end is NUL. *)
Definition first_char_is (c : ascii) (s : string) : bool :=
  match s with
  | EmptyString => Ascii.eqb Ascii.zero c
  | String a _ => Ascii.eqb a c
  end.

End Str.

(** ** C++ exceptions and [std::stoi] *)

Inductive Exn : Type :=
| invalid_argument
| out_of_range.

Inductive Outcome (A : Type) : Type :=
| Returned (a : A)
| Thrown (e : Exn).
Arguments Returned {A} a.
Arguments Thrown {A} e.

Module Stoi.

Definition INT_MIN : Z := - 2 ^ 31.
Definition INT_MAX : Z := 2 ^ 31 - 1.

(** [isspace] in the C locale. *)
Definition isspace (c : ascii) : bool :=
  let n := nat_of_ascii c in
  Nat.eqb n 32 || (Nat.leb 9 n && Nat.leb n 13).

Definition digit (c : ascii) : option Z :=
  let n := Z.of_nat (nat_of_ascii c) in
  if (48 <=? n) && (n <=? 57) then Some (n - 48) else None.

Fixpoint skip_space (s : string) : string :=
  match s with
  | String c t => if isspace c then skip_space t else s
  | EmptyString => s
  end.

(** The decimal digits at the head of [s]: how many there are and the
    number they write after [acc]. *)
Fixpoint digits (s : string) (acc : Z) : nat * Z :=
  match s with
  | String c t =>
      match digit c with
      | Some d => let '(n, v) := digits t (10 * acc + d) in (S n, v)
      | None => (O, acc)
      end
  | EmptyString => (O, acc)
  end.

(** [std::stoi(s)]: [strtol] in base 10 (leading white space, an optional
    sign, digits; what follows is ignored), [std::invalid_argument] when
    no digit was read and [std::out_of_range] when the number is not an
    [int]. *)
Definition stoi (s : string) : Outcome Z :=
  let s1 := skip_space s in
  let '(neg, s2) :=
    match s1 with
    | String "-"%char t => (true, t)
    | String "+"%char t => (false, t)
    | _ => (false, s1)
    end in
  match digits s2 0 with
  | (O, _) => Thrown invalid_argument
  | (S _, v) =>
      let v := if neg then - v else v in
      if (INT_MIN <=? v) && (v <=? INT_MAX) then Returned v
      else Thrown out_of_range
  end.

End Stoi.


(** ** The system surfaces and the process state *)

(** An address or an opaque JNI handle; [0] is [nullptr]. *)
Definition ptr : Type := Z.
Definition nullptr : ptr := 0.

(** What the operating system shows the process during one call. Nothing
    here is written by the detector. *)
Record System : Type := {
  (** files that can be opened for reading, with their content *)
  sys_files : gmap string string;
  (** paths on which [stat] succeeds, with the [st_mode] it reports *)
  sys_stat : gmap string Z;
  (** paths on which [access(path, W_OK)] succeeds *)
  sys_writable : gset string;
  (** the system property store *)
  sys_props : gmap string string;
  (** the process environment *)
  sys_environ : gmap string string;
  (** directories that can be opened, with the names [readdir] yields *)
  sys_dirs : gmap string (list string);
  (** [dlsym(RTLD_DEFAULT, name)] *)
  sys_symbols : gmap string ptr;
  (** [dladdr] on a function of the module: [None] when it fails, else
      [dli_fname] ([None] for a null name) *)
  sys_dladdr : option (option string);
  (** the bytes of the address space *)
  sys_memory : ptr -> Byte.byte;
  (** the value [ptrace(request, 0, 0, 0)] returns *)
  sys_ptrace : Z -> Z
}.

(** One call on a system surface or on the JNI. *)
Inductive Event : Type :=
| EvOpen (path : string)
| EvStat (path : string)
| EvAccess (path : string)
| EvPropGet (name : string)
| EvGetenv (name : string)
| EvOpendir (path : string)
| EvDlsym (name : string)
| EvDladdr
| EvPtrace (request : Z)
| EvJni (fn : string).

(** The mutable state of the process: the globals of [anti_hook.cpp], the
    objects held by JNI global references, and the log of calls made. *)
Record Proc : Type := {
  g_jvm : ptr;
  g_context : ptr;
  global_refs : list ptr;
  log : list Event
}.

(** A process in which [initAntiHook] has not run. *)
Definition fresh_proc : Proc :=
  {| g_jvm := nullptr; g_context := nullptr; global_refs := []; log := [] |}.

Definition M (A : Type) : Type := System -> Proc -> Outcome A * Proc.

#[export] Instance M_ret : MRet M := fun A a _ p => (Returned a, p).

#[export] Instance M_bind : MBind M := fun A B f m sys p =>
  match m sys p with
  | (Returned a, p') => f a sys p'
  | (Thrown e, p') => (Thrown e, p')
  end.

(** A pure computation that may throw. *)
Definition lift {A} (o : Outcome A) : M A := fun _ p => (o, p).

Definition result {A} (r : Outcome A * Proc) : Outcome A := fst r.
Definition final {A} (r : Outcome A * Proc) : Proc := snd r.

Definition append_log (evs : list Event) (p : Proc) : Proc :=
  {| g_jvm := g_jvm p; g_context := g_context p;
     global_refs := global_refs p; log := log p ++ evs |}.

Definition emit (e : Event) : M unit := fun _ p => (Returned tt, append_log [e] p).

(** Read a surface of the system, recording the call. *)
Definition observe {A} (e : Event) (f : System -> A) : M A :=
  emit e;; fun sys p => (Returned (f sys), p).

(** [std::ifstream f(path)] or [fopen(path, "r")]: the content when the
    file opens. *)
Definition ifstream (path : string) : M (option string) :=
  observe (EvOpen path) (fun sys => sys_files sys !! path).

(** [stat(path, &st) == 0], with [st.st_mode]. *)
Definition stat (path : string) : M (option Z) :=
  observe (EvStat path) (fun sys => sys_stat sys !! path).

(** [access(path, W_OK) == 0] *)
Definition access_W_OK (path : string) : M bool :=
  observe (EvAccess path) (fun sys => bool_decide (path ∈ sys_writable sys)).

(** [__system_property_get(name, value)]: [value] afterwards, empty for a
    property that is not set. *)
Definition system_property_get (name : string) : M string :=
  observe (EvPropGet name) (fun sys => default EmptyString (sys_props sys !! name)).

Definition getenv (name : string) : M (option string) :=
  observe (EvGetenv name) (fun sys => sys_environ sys !! name).

Definition opendir (path : string) : M (option (list string)) :=
  observe (EvOpendir path) (fun sys => sys_dirs sys !! path).

Definition dlsym (name : string) : M ptr :=
  observe (EvDlsym name) (fun sys => default nullptr (sys_symbols sys !! name)).

Definition dladdr : M (option (option string)) :=
  observe EvDladdr sys_dladdr.

Definition PTRACE_TRACEME : Z := 0.
Definition PTRACE_DETACH : Z := 17.

Definition ptrace (request : Z) : M Z :=
  observe (EvPtrace request) (fun sys => sys_ptrace sys request).

Definition byte_at (sys : System) (a : ptr) : Z :=
  Z.of_N (Byte.to_N (sys_memory sys a)).

(** [*reinterpret_cast<unsigned int*>(a)] on a little-endian machine. *)
Definition read_u32 (sys : System) (a : ptr) : Z :=
  Z.lor (byte_at sys a)
    (Z.lor (Z.shiftl (byte_at sys (a + 1)) 8)
       (Z.lor (Z.shiftl (byte_at sys (a + 2)) 16)
          (Z.shiftl (byte_at sys (a + 3)) 24))).

Definition peek_u32 (a : ptr) : M Z := fun sys p => (Returned (read_u32 sys a), p).

(** [for (x : xs) { if (f(x)) return true; } return false;] *)
Fixpoint first_hit {A} (f : A -> M bool) (xs : list A) : M bool :=
  match xs with
  | [] => mret false
  | x :: rest => b ← f x; if b : bool then mret true else first_hit f rest
  end.

(** A text file read line by line, or nothing when it did not open. *)
Definition lines_of (f : option string) : list string :=
  match f with
  | Some content => Str.getlines content
  | None => []
  end.

(** Some pattern of [pats] occurs in [line]. *)
Definition contains_any (pats : list string) (line : string) : bool :=
  existsb (Str.contains line) pats.

(** ** [security_native.cpp]: the probes *)

(** The loop of [checkTracerPid] over the lines of the status record: the
    first line that starts with [TracerPid:] decides, and [std::stoi]
    may throw on it. *)
Fixpoint scan_status (lines : list string) : Outcome bool :=
  match lines with
  | [] => Returned false
  | line :: rest =>
      if Str.find_is_0 line "TracerPid:" then
        match Stoi.stoi (Str.substr 10 line) with
        | Returned tracerPid =>
            if negb (tracerPid =? 0) then Returned true
            else Returned false
        | Thrown e => Thrown e
        end
      else scan_status rest
  end.

Definition checkTracerPid : M bool :=
  statusFile ← ifstream "/proc/self/status";
  match statusFile with
  | None => mret false
  | Some content => lift (scan_status (Str.getlines content))
  end.

Definition checkPtraceAttach : M bool :=
  traced ← checkTracerPid;
  if negb traced then mret false
  else
    r ← ptrace PTRACE_TRACEME;
    if r =? -1 then mret true
    else ptrace PTRACE_DETACH;; mret false.

Definition fridaPorts : list string :=
  ["697A"; "697B"; "697C"; "697D"; "6992"; "6993"; "6995"].

Definition checkFridaPort : M bool :=
  tcp4File ← ifstream "/proc/net/tcp";
  tcp6File ← ifstream "/proc/net/tcp6";
  match tcp4File, tcp6File with
  | None, None => mret false
  | _, _ =>
      if existsb (contains_any fridaPorts) (lines_of tcp4File) then mret true
      else if existsb (contains_any fridaPorts) (lines_of tcp6File) then mret true
      else mret false
  end.

Definition fridaThreadNames : list string :=
  ["gmain"; "gum-js-loop"; "gdbus"; "pool-frida"].

(** The body of the [readdir] loop of [checkFridaThreads] for one entry. *)
Definition checkFridaThread (d_name : string) : M bool :=
  if Str.first_char_is "."%char d_name then mret false
  else
    let commPath := Str.truncate 255 ("/proc/self/task/" +:+ d_name +:+ "/comm") in
    commFile ← ifstream commPath;
    match commFile with
    | Some content =>
        let threadName := Str.take_until Str.newline content in
        mret (contains_any fridaThreadNames threadName)
    | None => mret false
    end.

Definition checkFridaThreads : M bool :=
  taskDir ← opendir "/proc/self/task";
  match taskDir with
  | None => mret false
  | Some entries => first_hit checkFridaThread entries
  end.

Definition fridaFiles : list string :=
  ["/data/local/tmp/frida-server";
   "/data/local/tmp/frida";
   "/data/local/tmp/re.frida.server"].

(** [stat(file, &fileStat) == 0] *)
Definition exists_file (file : string) : M bool :=
  st ← stat file; mret (bool_decide (is_Some st)).

Definition checkFridaFiles : M bool := first_hit exists_file fridaFiles.

Definition checkFridaInMemory : M bool :=
  mapsFile ← ifstream "/proc/self/maps";
  match mapsFile with
  | None => mret false
  | Some content =>
      mret (existsb (contains_any ["frida"; "linjector"]) (Str.getlines content))
  end.

Definition checkInlineHook : M bool :=
  openAddr ← dlsym "open";
  if openAddr =? nullptr then mret false
  else
    instr ← peek_u32 openAddr;
    if Z.land instr 0xFC000000 =? 0x14000000 then mret true
    else if Z.land instr 0xFF000000 =? 0x58000000 then mret true
    else mret false.

Definition suPaths : list string :=
  ["/system/bin/su";
   "/system/xbin/su";
   "/sbin/su";
   "/su/bin/su";
   "/data/local/su";
   "/data/local/bin/su";
   "/data/local/xbin/su";
   "/vendor/bin/su"].

(** The owner's execute bit of [st_mode]. *)
Definition S_IXUSR : Z := 64. (* 0100 in octal *)

(** The body of the loop of [checkSuBinary] for one path. *)
Definition su_at (path : string) : M bool :=
  st ← stat path;
  match st with
  | Some st_mode => if negb (Z.land st_mode S_IXUSR =? 0) then mret true else mret false
  | None => mret false
  end.

Definition checkSuBinary : M bool := first_hit su_at suPaths.

Definition checkRootProperties : M bool :=
  value ← system_property_get "ro.debuggable";
  if Str.strcmp_eq value "1" then mret true
  else
    value ← system_property_get "ro.secure";
    if Str.strcmp_eq value "0" then mret true
    else
      value ← system_property_get "ro.build.tags";
      if Str.strstr value "test-keys" then mret true
      else mret false.

Definition dangerousPaths : list string :=
  ["/system"; "/system/bin"; "/system/xbin"].

Definition checkDangerousPermissions : M bool :=
  first_hit access_W_OK dangerousPaths.

Definition suspiciousLibs : list string :=
  ["frida"; "xposed"; "substrate"; "libriru"; "lsposed"].

Definition checkLoadedLibraries : M bool :=
  mapsFile ← ifstream "/proc/self/maps";
  match mapsFile with
  | None => mret false
  | Some content =>
      mret (existsb (contains_any suspiciousLibs) (Str.getlines content))
  end.

(** [if (probe()) flag = true;] *)
Definition or_probe (flag : bool) (probe : M bool) : M bool :=
  b ← probe; mret (if b : bool then true else flag).

Definition detectFrida : M bool :=
  let detected := false in
  detected ← or_probe detected checkFridaPort;
  detected ← or_probe detected checkFridaThreads;
  detected ← or_probe detected checkFridaFiles;
  detected ← or_probe detected checkFridaInMemory;
  detected ← or_probe detected checkInlineHook;
  mret detected.

Definition checkEmulatorCpu : M bool :=
  cpuinfoFile ← ifstream "/proc/cpuinfo";
  match cpuinfoFile with
  | None => mret false
  | Some content =>
      if contains_any ["Intel"; "AMD"; "GenuineIntel"] content then mret true
      else if contains_any ["goldfish"; "ranchu"; "vbox"] content then mret true
      else mret false
  end.

Definition qemuFiles : list string :=
  ["/dev/socket/qemud";
   "/dev/qemu_pipe";
   "/system/lib/libc_malloc_debug_qemu.so";
   "/sys/qemu_trace";
   "/system/bin/qemu-props"].

Definition checkQemuFiles : M bool := first_hit exists_file qemuFiles.

Definition suspiciousStrs : list string :=
  ["frida"; "gdb"; "gdbserver"; "lldb"; "ida"; "substrate"].

Definition checkSuspiciousStrings : M bool :=
  cmdlineFile ← ifstream "/proc/self/cmdline";
  match cmdlineFile with
  | None => mret false
  | Some content =>
      let cmdline := Str.take_until Ascii.zero content in
      mret (contains_any suspiciousStrs cmdline)
  end.

Definition checkLdPreload : M bool :=
  ldPreload ← getenv "LD_PRELOAD";
  match ldPreload with
  | Some v => mret (negb (String.eqb (Str.c_str v) EmptyString))
  | None => mret false
  end.

Definition checkAbnormalFd : M bool :=
  dir ← opendir "/proc/self/fd";
  match dir with
  | None => mret false
  | Some entries =>
      let fdCount :=
        fold_left (fun n d_name => if negb (Str.first_char_is "."%char d_name) then n + 1 else n)
          entries 0 in
      if 200 <? fdCount then mret true else mret false
  end.

(** ** [anti_hook.cpp]: the caller-integrity gate *)

Definition package : string := "com.grtsinry43.environmentdetector".

Definition JNI_OK : Z := 0.

(** What a [JNIEnv*] answers during one call. *)
Record JNIEnv : Type := {
  (** the status of [GetJavaVM] and the [JavaVM*] it stores *)
  env_GetJavaVM : Z * ptr;
  (** [FindClass(name)] *)
  env_FindClass : string -> ptr;
  (** [GetStaticMethodID(cls, name, sig)] *)
  env_GetStaticMethodID : string -> ptr;
  (** [GetMethodID(cls, name, sig)] *)
  env_GetMethodID : string -> ptr;
  (** [Thread.currentThread().getStackTrace()]: [None] for a null array,
      else the declaring class name of each frame, innermost first *)
  env_stackTrace : option (list string)
}.

Definition jni (fn : string) : M unit := emit (EvJni fn).

(** The loop of [verifyCallerIntegrity] over the stack trace; [budget]
    is what is left of the 20 frames it looks at. *)
Fixpoint find_package_frame (budget : nat) (frames : list string) : M bool :=
  match budget, frames with
  | S budget', className :: rest =>
      jni "GetObjectArrayElement";;
      jni "CallObjectMethod";;
      jni "GetStringUTFChars";;
      let foundOurPackage := Str.strstr className package in
      jni "ReleaseStringUTFChars";;
      jni "DeleteLocalRef";;
      jni "DeleteLocalRef";;
      if foundOurPackage then mret true else find_package_frame budget' rest
  | _, _ => mret false
  end.

Definition get_g_jvm : M ptr := fun _ p => (Returned (g_jvm p), p).

Definition verifyCallerIntegrity (env : option JNIEnv) : M bool :=
  jvm ← get_g_jvm;
  match env with
  | None => mret false
  | Some env =>
      if jvm =? nullptr then mret false
      else
        jni "GetJavaVM";;
        let '(status, vm) := env_GetJavaVM env in
        if negb (status =? JNI_OK) || negb (vm =? jvm) then mret false
        else
          jni "FindClass";;
          let threadClass := env_FindClass env "java/lang/Thread" in
          if threadClass =? nullptr then mret false
          else
            jni "GetStaticMethodID";;
            let currentThread := env_GetStaticMethodID env "currentThread" in
            jni "GetMethodID";;
            let getStackTrace := env_GetMethodID env "getStackTrace" in
            if (currentThread =? nullptr) || (getStackTrace =? nullptr) then
              jni "DeleteLocalRef";; mret false
            else
              jni "CallStaticObjectMethod";;
              jni "CallObjectMethod";;
              match env_stackTrace env with
              | Some frames =>
                  jni "GetArrayLength";;
                  jni "FindClass";;
                  jni "GetMethodID";;
                  foundOurPackage ← find_package_frame 20 frames;
                  jni "DeleteLocalRef";;
                  jni "DeleteLocalRef";;
                  jni "DeleteLocalRef";;
                  jni "DeleteLocalRef";;
                  if negb foundOurPackage then mret false else mret true
              | None => mret true
              end
  end.

Definition verifyProcessIntegrity : M bool :=
  fp ← ifstream "/proc/self/cmdline";
  match fp with
  | None => mret false
  | Some content =>
      let processName := Str.fgets 255 content in
      if negb (Str.strstr processName package) then mret false
      else mret true
  end.

Definition verifySoLoadPath : M bool :=
  info ← dladdr;
  match info with
  | None => mret false
  | Some None => mret false
  | Some (Some soPath) =>
      if negb (Str.strstr soPath "/data/app/") || negb (Str.strstr soPath package)
      then mret false
      else mret true
  end.

(** Compare [n] bytes from offset [i] on; the first difference returns. *)
Fixpoint compare_bytes (sys : System) (actualBytes expectedBytes : ptr) (i : Z) (n : nat) : bool :=
  match n with
  | O => false
  | S n' =>
      if negb (Byte.eqb (sys_memory sys (actualBytes + i)) (sys_memory sys (expectedBytes + i)))
      then true
      else compare_bytes sys actualBytes expectedBytes (i + 1) n'
  end.

Definition detectFunctionHook (sys : System) (funcPtr expectedBytes : ptr) (len : N) : bool :=
  if (funcPtr =? nullptr) || (expectedBytes =? nullptr) || (len =? 0)%N then false
  else compare_bytes sys funcPtr expectedBytes 0 (N.to_nat len).

(** [env->NewGlobalRef(obj)]: null for a null object, else the handle of
    a new entry of the table of global references. *)
Definition NewGlobalRef (obj : ptr) : M ptr := fun _ p =>
  let p := append_log [EvJni "NewGlobalRef"] p in
  if obj =? nullptr then (Returned nullptr, p)
  else
    (Returned (Z.of_nat (S (length (global_refs p)))),
     {| g_jvm := g_jvm p; g_context := g_context p;
        global_refs := global_refs p ++ [obj]; log := log p |}).

Definition set_g_jvm (vm : ptr) : M unit := fun _ p =>
  (Returned tt,
   {| g_jvm := vm; g_context := g_context p;
      global_refs := global_refs p; log := log p |}).

Definition set_g_context (ctx : ptr) : M unit := fun _ p =>
  (Returned tt,
   {| g_jvm := g_jvm p; g_context := ctx;
      global_refs := global_refs p; log := log p |}).

(** [Java_..._NativeSecurityDetector_initAntiHook] *)
Definition initAntiHook (env : JNIEnv) (context : ptr) : M unit :=
  jni "GetJavaVM";;
  set_g_jvm (snd (env_GetJavaVM env));;
  ref ← NewGlobalRef context;
  set_g_context ref.

Definition verifyNativeCall (env : option JNIEnv) : M bool :=
  ok ← verifyProcessIntegrity;
  if negb ok then mret false
  else
    ok ← verifySoLoadPath;
    if negb ok then mret false
    else
      ok ← verifyCallerIntegrity env;
      if negb ok then mret false
      else mret true.

(** ** [security_native.cpp]: the exported entry points *)

(** [Java_..._NativeSecurityDetector_nativeCheckRoot] *)
Definition nativeCheckRoot (env : option JNIEnv) : M bool :=
  ok ← verifyNativeCall env;
  if negb ok then mret true
  else
    let isRooted := false in
    isRooted ← or_probe isRooted checkSuBinary;
    isRooted ← or_probe isRooted checkRootProperties;
    isRooted ← or_probe isRooted checkDangerousPermissions;
    mret isRooted.

(** [Java_..._NativeSecurityDetector_nativeCheckHook] *)
Definition nativeCheckHook : M bool :=
  let isHooked := false in
  isHooked ← or_probe isHooked checkLoadedLibraries;
  isHooked ← or_probe isHooked detectFrida;
  isHooked ← or_probe isHooked checkSuspiciousStrings;
  isHooked ← or_probe isHooked checkLdPreload;
  mret isHooked.

(** [Java_..._NativeSecurityDetector_nativeCheckDebugger] *)
Definition nativeCheckDebugger : M bool :=
  let isDebugging := false in
  isDebugging ← or_probe isDebugging checkTracerPid;
  mret isDebugging.

(** [Java_..._NativeSecurityDetector_nativeCheckEmulator] *)
Definition nativeCheckEmulator : M bool :=
  let isEmulator := false in
  isEmulator ← or_probe isEmulator checkEmulatorCpu;
  isEmulator ← or_probe isEmulator checkQemuFiles;
  mret isEmulator.

(** ** Sequences of calls from the application *)

Inductive Call : Type :=
| CallInit (env : JNIEnv) (context : ptr)
| CallCheckRoot (env : option JNIEnv)
| CallCheckHook
| CallCheckDebugger
| CallCheckEmulator.

Definition perform (c : Call) : M unit :=
  match c with
  | CallInit env context => initAntiHook env context
  | CallCheckRoot env => nativeCheckRoot env;; mret tt
  | CallCheckHook => nativeCheckHook;; mret tt
  | CallCheckDebugger => nativeCheckDebugger;; mret tt
  | CallCheckEmulator => nativeCheckEmulator;; mret tt
  end.

(** Each call sees the system as it is when the call is made. *)
Definition run_calls (calls : list (System * Call)) (p : Proc) : Proc :=
  fold_left (fun p sc => final (perform (snd sc) (fst sc) p)) calls p.

Definition is_init (c : Call) : bool :=
  match c with CallInit _ _ => true | _ => false end.

(** The TrustContext: the runtime handle and the context reference. *)
Definition trust (p : Proc) : ptr * ptr := (g_jvm p, g_context p).

(** ** Concrete systems, used to run the model *)

Definition tab : string := String "009"%char EmptyString.
Definition nl : string := String Str.newline EmptyString.
Definition nul : string := String Ascii.zero EmptyString.

(** A status record as the kernel writes it, with the given tracer. *)
Definition status_with (tracer : string) : string :=
  "Name:" +:+ tab +:+ "nvironmentdetector" +:+ nl +:+
  "State:" +:+ tab +:+ "R (running)" +:+ nl +:+
  "TracerPid:" +:+ tab +:+ tracer +:+ nl +:+
  "Uid:" +:+ tab +:+ "10234" +:+ nl.

Definition so_path : string :=
  "/data/app/com.grtsinry43.environmentdetector-1/lib/arm64/libsecurity.so".

(** The address of [open] in the example systems. *)
Definition open_addr : ptr := 0x7000.

(** [stp x29, x30, [sp, #-16]!] (a9bf7bfd), an ordinary prologue. *)
Definition prologue_memory (a : ptr) : Byte.byte :=
  if a =? open_addr then Byte.xfd
  else if a =? open_addr + 1 then Byte.x7b
  else if a =? open_addr + 2 then Byte.xbf
  else if a =? open_addr + 3 then Byte.xa9
  else Byte.x00.

(** The application's own process on a device with nothing to report. *)
Definition clean_system : System :=
  {| sys_files :=
       <["/proc/self/status" := status_with "0"]>
       (<["/proc/self/cmdline" := package +:+ nul]>
       (<["/proc/self/maps" := "7000-8000 r-xp 00000000 fd:00 1 /apex/lib64/libc.so" +:+ nl]>
       (<["/proc/cpuinfo" := "Processor" +:+ tab +:+ ": AArch64 Processor rev 4" +:+ nl]> ∅)));
     sys_stat := ∅;
     sys_writable := ∅;
     sys_props := <["ro.debuggable" := "0"]> (<["ro.secure" := "1"]>
                  (<["ro.build.tags" := "release-keys"]> ∅));
     sys_environ := ∅;
     sys_dirs := <["/proc/self/task" := ["."; ".."; "4711"]]> ∅;
     sys_symbols := <["open" := open_addr]> ∅;
     sys_dladdr := Some (Some so_path);
     sys_memory := prologue_memory;
     sys_ptrace := fun _ => 0 |}.

Definition with_files (sys : System) (files : gmap string string) : System :=
  {| sys_files := files; sys_stat := sys_stat sys; sys_writable := sys_writable sys;
     sys_props := sys_props sys; sys_environ := sys_environ sys;
     sys_dirs := sys_dirs sys; sys_symbols := sys_symbols sys;
     sys_dladdr := sys_dladdr sys; sys_memory := sys_memory sys;
     sys_ptrace := sys_ptrace sys |}.

Definition with_stat (sys : System) (st : gmap string Z) : System :=
  {| sys_files := sys_files sys; sys_stat := st; sys_writable := sys_writable sys;
     sys_props := sys_props sys; sys_environ := sys_environ sys;
     sys_dirs := sys_dirs sys; sys_symbols := sys_symbols sys;
     sys_dladdr := sys_dladdr sys; sys_memory := sys_memory sys;
     sys_ptrace := sys_ptrace sys |}.

Definition with_memory (sys : System) (mem : ptr -> Byte.byte) : System :=
  {| sys_files := sys_files sys; sys_stat := sys_stat sys; sys_writable := sys_writable sys;
     sys_props := sys_props sys; sys_environ := sys_environ sys;
     sys_dirs := sys_dirs sys; sys_symbols := sys_symbols sys;
     sys_dladdr := sys_dladdr sys; sys_memory := mem;
     sys_ptrace := sys_ptrace sys |}.

Definition with_ptrace (sys : System) (f : Z -> Z) : System :=
  {| sys_files := sys_files sys; sys_stat := sys_stat sys; sys_writable := sys_writable sys;
     sys_props := sys_props sys; sys_environ := sys_environ sys;
     sys_dirs := sys_dirs sys; sys_symbols := sys_symbols sys;
     sys_dladdr := sys_dladdr sys; sys_memory := sys_memory sys;
     sys_ptrace := f |}.

(** The system with another status record. *)
Definition with_status (sys : System) (status : string) : System :=
  with_files sys (<["/proc/self/status" := status]> (sys_files sys)).

(** The [JavaVM*] of the example runtime. *)
Definition the_vm : ptr := 0x5000.

(** A [JNIEnv] of that runtime, with the given stack trace. *)
Definition env_with (vm : ptr) (stack : option (list string)) : JNIEnv :=
  {| env_GetJavaVM := (JNI_OK, vm);
     env_FindClass := fun _ => 0x6000;
     env_GetStaticMethodID := fun _ => 0x6100;
     env_GetMethodID := fun _ => 0x6200;
     env_stackTrace := stack |}.

Definition app_stack : list string :=
  ["dalvik.system.VMStack"; "java.lang.Thread";
   "com.grtsinry43.environmentdetector.security.NativeSecurityDetector";
   "com.grtsinry43.environmentdetector.MainActivity"].

Definition app_env : JNIEnv := env_with the_vm (Some app_stack).

(** A call of the same runtime whose stack trace cannot be obtained. *)
Definition no_stack_env : JNIEnv := env_with the_vm None.

(** A status record whose tracer field is not a number. *)
Definition malformed_status : string :=
  "Name:" +:+ tab +:+ "app" +:+ nl +:+ "TracerPid:" +:+ tab +:+ "none" +:+ nl.

(** The process after the application's [initAntiHook(context)]. *)
Definition initialized_proc : Proc :=
  final (initAntiHook app_env 0x9000 clean_system fresh_proc).

(** ** Classes of events and of computations *)

(** Calls the root-specific probes make: [stat], the property store and
    [access]. *)
Definition is_root_probe_event (e : Event) : bool :=
  match e with
  | EvStat _ | EvPropGet _ | EvAccess _ => true
  | _ => false
  end.

(** Calls the caller-integrity gate makes. *)
Definition is_gate_event (e : Event) : bool :=
  match e with
  | EvOpen path => String.eqb path "/proc/self/cmdline"
  | EvDladdr | EvJni _ => true
  | _ => false
  end.

(** Calls only the gate makes: the module's load path and the JNI. *)
Definition is_runtime_event (e : Event) : bool :=
  match e with
  | EvDladdr | EvJni _ => true
  | _ => false
  end.

(** [m] returns, and what it returns and logs depends on the system
    alone: it neither reads nor writes the globals. Every logged event
    is in [P]. *)
Definition probe_like (P : Event -> Prop) {A} (m : M A) : Prop :=
  forall sys, exists a evs,
    Forall P evs /\ forall p, m sys p = (Returned a, append_log evs p).

(** [m] returns and changes nothing of the process but the log, to which
    it adds events of [P]. *)
Definition gate_like (P : Event -> Prop) {A} (m : M A) : Prop :=
  forall sys p, exists a evs,
    Forall P evs /\ m sys p = (Returned a, append_log evs p).

(** The first line of a status record that starts with [TracerPid:]. *)
Definition first_tracer_line (lines : list string) (line : string) : Prop :=
  exists before after,
    lines = before ++ line :: after /\
    Forall (fun l => Str.find_is_0 l "TracerPid:" = false) before /\
    Str.find_is_0 line "TracerPid:" = true.

Definition not_runtime (e : Event) : Prop := is_runtime_event e = false.
Definition root_probe (e : Event) : Prop := is_root_probe_event e = true.
Definition gate_event (e : Event) : Prop := is_gate_event e = true.
Definition any_event (e : Event) : Prop := True.

(** ** Verdicts in closed form

    Each of these is proved below to be what the function named in its
    comment returns; none of them stands for the code by itself. *)

(** The verdict of [verifyProcessIntegrity]. *)
Definition process_ok (sys : System) : bool :=
  match sys_files sys !! "/proc/self/cmdline" with
  | Some content => Str.strstr (Str.fgets 255 content) package
  | None => false
  end.

(** The verdict of [verifySoLoadPath]. *)
Definition load_path_ok (sys : System) : bool :=
  match sys_dladdr sys with
  | Some (Some soPath) => Str.strstr soPath "/data/app/" && Str.strstr soPath package
  | _ => false
  end.

(** The outcome of the stack walk of [verifyCallerIntegrity]. *)
Definition frames_ok (stack : option (list string)) : bool :=
  match stack with
  | Some frames => existsb (fun c => Str.strstr c package) (take 20 frames)
  | None => true
  end.

(** The verdict of [verifyCallerIntegrity]. *)
Definition caller_ok (env : option JNIEnv) (p : Proc) : bool :=
  match env with
  | None => false
  | Some env =>
      negb (g_jvm p =? nullptr)
      && (fst (env_GetJavaVM env) =? JNI_OK)
      && (snd (env_GetJavaVM env) =? g_jvm p)
      && negb (env_FindClass env "java/lang/Thread" =? nullptr)
      && negb (env_GetStaticMethodID env "currentThread" =? nullptr)
      && negb (env_GetMethodID env "getStackTrace" =? nullptr)
      && frames_ok (env_stackTrace env)
  end.

Definition status_path : string := "/proc/self/status".

(** The outcome of [checkTracerPid]. *)
Definition tracer_verdict (sys : System) : Outcome bool :=
  match sys_files sys !! status_path with
  | None => Returned false
  | Some content => scan_status (Str.getlines content)
  end.

(** The verdict of [su_at]: [path] exists and its owner may execute it. *)
Definition su_executable (sys : System) (path : string) : bool :=
  match sys_stat sys !! path with
  | Some st_mode => negb (Z.land st_mode S_IXUSR =? 0)
  | None => false
  end.

(** A remnant of a root kit with mode 0644, and a live one with mode 0755. *)
Definition su_remnant : gmap string Z := <["/system/xbin/su" := 420]> ∅.
Definition su_installed : gmap string Z := <["/sbin/su" := 493]> su_remnant.

(** [ldr x16, #8] (58000050), the head of a trampoline, written over the
    prologue of [open]. *)
Definition hooked_memory (a : ptr) : Byte.byte :=
  if a =? open_addr then Byte.x50
  else if a =? open_addr + 1 then Byte.x00
  else if a =? open_addr + 2 then Byte.x00
  else if a =? open_addr + 3 then Byte.x58
  else prologue_memory a.

(** Where the expected prologue is kept in the example memory. *)
Definition signature_memory (a : ptr) : Byte.byte :=
  if a =? 0x8000 then Byte.xfd
  else if a =? 0x8001 then Byte.x7b
  else if a =? 0x8002 then Byte.xbf
  else if a =? 0x8003 then Byte.xa9
  else hooked_memory a.

(** [b #0x40] (14000010) written over the prologue of [open]. *)
Definition branch_memory (a : ptr) : Byte.byte :=
  if a =? open_addr then Byte.x10
  else if a =? open_addr + 1 then Byte.x00
  else if a =? open_addr + 2 then Byte.x00
  else if a =? open_addr + 3 then Byte.x14
  else prologue_memory a.

(** [m] changes nothing of the process but the log, and logs no call to
    the module's load path or to the JNI. *)
Definition leaves_runtime_alone {A} (m : M A) (sys : System) (p : Proc) : Prop :=
  exists evs, final (m sys p) = append_log evs p /\ Forall not_runtime evs.

(** No call of the sequence is [initAntiHook]. *)
Definition no_init (calls : list (System * Call)) : bool :=
  forallb (fun sc => negb (is_init (snd sc))) calls.

(** The handle [NewGlobalRef] gives in process [p] for [context]. *)
Definition new_context_ref (p : Proc) (context : ptr) : ptr :=
  if context =? nullptr then nullptr else Z.of_nat (S (length (global_refs p))).

(** A [JNIEnv] of another runtime. *)
Definition other_env : JNIEnv := env_with 0x5800 (Some app_stack).

(** ** Auxiliary notions for the probes *)

(** The elements of [xs] up to and including the first that satisfies
    [g]: what a loop that returns at its first hit goes through. *)
Fixpoint upto_first {A} (g : A -> bool) (xs : list A) : list A :=
  match xs with
  | [] => []
  | x :: rest => if g x then [x] else x :: upto_first g rest
  end.

(** Run [m2] in the state [m1] leaves, whatever [m1] returned. *)
Definition and_then {A B} (m1 : M A) (m2 : M B) : M B :=
  fun sys p => m2 sys (final (m1 sys p)).

(** The patterns of [checkEmulatorCpu] and of [checkSuspiciousStrings]
    without those that hold another pattern of the same list
    ([GenuineIntel] holds [Intel], [gdbserver] holds [gdb]). *)
Definition cpuPatterns : list string := ["Intel"; "AMD"; "goldfish"; "ranchu"; "vbox"].
Definition argPatterns : list string := ["frida"; "gdb"; "lldb"; "ida"; "substrate"].

(** [pat] occurs in [s]. *)
Definition occurs_in (pat s : string) : Prop := exists a b, s = a +:+ pat +:+ b.

(** [comm] file of a thread, as [checkFridaThreads] formats its path. *)
Definition comm_path (d_name : string) : string :=
  Str.truncate 255 ("/proc/self/task/" +:+ d_name +:+ "/comm").

(** The value [__system_property_get] stores for [name], as a C string. *)
Definition prop_value (sys : System) (name : string) : string :=
  Str.c_str (default EmptyString (sys_props sys !! name)).

(** A memory map that lists an agent of the instrumentation framework. *)
Definition frida_maps_system : System :=
  with_files clean_system
    (<["/proc/self/maps" :=
         "7f00-7f10 r-xp 00000000 fd:00 9 /data/local/tmp/frida-agent-64.so" +:+ nl]> ∅).

(** A device whose property store answers nothing. *)
Definition unset_props_system : System :=
  {| sys_files := sys_files clean_system; sys_stat := ∅; sys_writable := ∅;
     sys_props := ∅; sys_environ := ∅; sys_dirs := sys_dirs clean_system;
     sys_symbols := sys_symbols clean_system; sys_dladdr := sys_dladdr clean_system;
     sys_memory := sys_memory clean_system; sys_ptrace := sys_ptrace clean_system |}.

(** A rooted device: the application's own process, an executable [su]. *)
Definition rooted_system : System := with_stat clean_system su_installed.

(** [x] holds neither a NUL nor a newline. *)
Fixpoint plain (x : string) : bool :=
  match x with
  | EmptyString => true
  | String c t => negb (Ascii.eqb c Ascii.zero) && negb (Ascii.eqb c Str.newline) && plain t
  end.

(** A call from the application buried under twenty frames of a
    reflection framework. *)
Definition deep_stack : list string :=
  replicate 20 "java.lang.reflect.Method" ++ app_stack.

Definition deep_env : JNIEnv := env_with the_vm (Some deep_stack).

(** A process of another package. *)
Definition foreign_system : System :=
  with_files clean_system
    (<["/proc/self/cmdline" := "com.example.loader" +:+ nul]> (sys_files clean_system)).

(** The most significant bytes that [checkInlineHook] takes for a hook:
    [B] (14 to 17) and [LDR] literal to a 64-bit register (58). *)
Definition hook_top_bytes : list Byte.byte :=
  [Byte.x14; Byte.x15; Byte.x16; Byte.x17; Byte.x58].

(** The context objects that the [initAntiHook] calls of a sequence turn
    into global references. *)
Fixpoint init_contexts (calls : list (System * Call)) : list ptr :=
  match calls with
  | [] => []
  | (_, CallInit _ context) :: rest =>
      if context =? nullptr then init_contexts rest else context :: init_contexts rest
  | _ :: rest => init_contexts rest
  end.

(** The entries of a directory listing that [checkAbnormalFd] counts. *)
Definition counted_entries (entries : list string) : list string :=
  List.filter (fun d_name => negb (Str.first_char_is "."%char d_name)) entries.

(** A number as the kernel prints it: its decimal digits, most
    significant first. *)
Definition digit_char (d : Z) : ascii := ascii_of_nat (Z.to_nat (48 + d)).

Fixpoint decimal (ds : list Z) : string :=
  match ds with
  | [] => EmptyString
  | d :: rest => String (digit_char d) (decimal rest)
  end.

Definition decimal_value (ds : list Z) : Z :=
  fold_left (fun acc d => 10 * acc + d) ds 0.

Definition are_digits (ds : list Z) : Prop := Forall (fun d => 0 <= d <= 9) ds.

(** * Properties *)

(** ** Running the model *)

Example getlines_splits_at_newlines :
  Str.getlines ("Name:" +:+ tab +:+ "app" +:+ nl +:+ nl +:+ "TracerPid:" +:+ tab +:+ "0" +:+ nl)
  = ["Name:" +:+ tab +:+ "app"; ""; "TracerPid:" +:+ tab +:+ "0"].
Proof. reflexivity. Qed.

Example stoi_skips_space_and_stops_at_text : Stoi.stoi (tab +:+ "1234 x") = Returned 1234.
Proof. reflexivity. Qed.

Example stoi_without_digits_throws : Stoi.stoi (tab +:+ "abc") = Thrown invalid_argument.
Proof. reflexivity. Qed.

Example stoi_beyond_int_throws : Stoi.stoi "2147483648" = Thrown out_of_range.
Proof. reflexivity. Qed.

Example find_gives_first_position : Str.find "xxTracerPid:" "TracerPid:" = Some 2%nat.
Proof. reflexivity. Qed.

Example clean_device_root :
  result (nativeCheckRoot (Some app_env) clean_system initialized_proc) = Returned false.
Proof. vm_compute. reflexivity. Qed.

Example clean_device_hook :
  result (nativeCheckHook clean_system initialized_proc) = Returned false.
Proof. vm_compute. reflexivity. Qed.

Example clean_device_debugger :
  result (nativeCheckDebugger clean_system initialized_proc) = Returned false.
Proof. vm_compute. reflexivity. Qed.

Example clean_device_emulator :
  result (nativeCheckEmulator clean_system initialized_proc) = Returned false.
Proof. vm_compute. reflexivity. Qed.

Example traced_process_debugger :
  result (nativeCheckDebugger (with_status clean_system (status_with "4242")) initialized_proc)
  = Returned true.
Proof. vm_compute. reflexivity. Qed.

(** ** The monad *)

Lemma append_log_nil p : append_log [] p = p.
Proof. destruct p; unfold append_log; simpl. by rewrite app_nil_r. Qed.

Lemma append_log_app evs1 evs2 p :
  append_log evs2 (append_log evs1 p) = append_log (evs1 ++ evs2) p.
Proof. unfold append_log; simpl. by rewrite app_assoc. Qed.

Lemma bind_returned {A B} (m : M A) (f : A -> M B) sys p a p' :
  m sys p = (Returned a, p') -> (m ≫= f) sys p = f a sys p'.
Proof. intros H. unfold mbind, M_bind. by rewrite H. Qed.

Lemma bind_thrown {A B} (m : M A) (f : A -> M B) sys p e p' :
  m sys p = (Thrown e, p') -> (m ≫= f) sys p = (Thrown e, p').
Proof. intros H. unfold mbind, M_bind. by rewrite H. Qed.

Lemma observe_eq {A} e (f : System -> A) sys p :
  observe e f sys p = (Returned (f sys), append_log [e] p).
Proof. reflexivity. Qed.

Lemma probe_weaken (P Q : Event -> Prop) {A} (m : M A) :
  (forall e, P e -> Q e) -> probe_like P m -> probe_like Q m.
Proof.
  intros HPQ Hm sys. destruct (Hm sys) as (a & evs & Hall & Heq).
  exists a, evs. split; [| done]. eapply Forall_impl; eauto.
Qed.

Lemma probe_gate (P : Event -> Prop) {A} (m : M A) : probe_like P m -> gate_like P m.
Proof.
  intros Hm sys p. destruct (Hm sys) as (a & evs & Hall & Heq). eauto.
Qed.

Lemma probe_ret P {A} (a : A) : probe_like P (mret a).
Proof.
  intros sys. exists a, []. split; [constructor |].
  intros p. unfold mret, M_ret. by rewrite append_log_nil.
Qed.

Lemma probe_bind P {A B} (m : M A) (f : A -> M B) :
  probe_like P m -> (forall a, probe_like P (f a)) -> probe_like P (m ≫= f).
Proof.
  intros Hm Hf sys. destruct (Hm sys) as (a & evs & Hall & Heq).
  destruct (Hf a sys) as (b & evs' & Hall' & Heq').
  exists b, (evs ++ evs'). split; [by apply Forall_app |].
  intros p. rewrite (bind_returned _ _ _ _ _ _ (Heq p)), Heq'.
  by rewrite append_log_app.
Qed.

Lemma probe_observe (P : Event -> Prop) {A} e (f : System -> A) :
  P e -> probe_like P (observe e f).
Proof.
  intros He sys. exists (f sys), [e]. split; [by repeat constructor | done].
Qed.

Lemma probe_peek P a : probe_like P (peek_u32 a).
Proof.
  intros sys. exists (read_u32 sys a), []. split; [constructor |].
  intros p. unfold peek_u32. by rewrite append_log_nil.
Qed.

Lemma probe_first_hit P {A} (f : A -> M bool) xs :
  (forall x, probe_like P (f x)) -> probe_like P (first_hit f xs).
Proof.
  intros Hf. induction xs as [| x rest IH]; simpl.
  - apply probe_ret.
  - apply probe_bind; [apply Hf |]. intros [|]; [apply probe_ret | apply IH].
Qed.

Lemma probe_or_probe P flag (m : M bool) :
  probe_like P m -> probe_like P (or_probe flag m).
Proof. intros Hm. apply probe_bind; [done |]. intros b. apply probe_ret. Qed.

Lemma gate_ret P {A} (a : A) : gate_like P (mret a).
Proof. apply probe_gate, probe_ret. Qed.

Lemma gate_bind P {A B} (m : M A) (f : A -> M B) :
  gate_like P m -> (forall a, gate_like P (f a)) -> gate_like P (m ≫= f).
Proof.
  intros Hm Hf sys p. destruct (Hm sys p) as (a & evs & Hall & Heq).
  destruct (Hf a sys (append_log evs p)) as (b & evs' & Hall' & Heq').
  exists b, (evs ++ evs'). split; [by apply Forall_app |].
  rewrite (bind_returned _ _ _ _ _ _ Heq), Heq'. by rewrite append_log_app.
Qed.

Lemma gate_jni (P : Event -> Prop) fn : P (EvJni fn) -> gate_like P (jni fn).
Proof.
  intros He sys p. exists tt, [EvJni fn]. split; [by repeat constructor | done].
Qed.

Lemma gate_get_g_jvm P : gate_like P get_g_jvm.
Proof.
  intros sys p. exists (g_jvm p), []. split; [constructor |].
  unfold get_g_jvm. by rewrite append_log_nil.
Qed.

Ltac unfold_surfaces :=
  unfold ifstream, stat, access_W_OK, system_property_get, getenv, opendir,
    dlsym, dladdr, ptrace.

(** Walk a probe that only observes the system. *)
Ltac probe_tac :=
  unfold_surfaces;
  repeat first
    [ apply probe_ret
    | apply probe_peek
    | apply probe_observe; reflexivity
    | apply probe_or_probe
    | apply probe_first_hit; intros ?
    | apply probe_bind; [| intros ?]
    | match goal with
      | |- probe_like _ (match ?x with _ => _ end) => destruct x
      end ].

(** Walk a function of the gate, which also reads [g_jvm] and calls the JNI. *)
Ltac gate_tac :=
  repeat first
    [ apply gate_ret
    | apply gate_get_g_jvm
    | apply gate_jni; reflexivity
    | apply gate_bind; [| intros ?]
    | match goal with
      | |- gate_like _ (match ?x with _ => _ end) => destruct x
      end ].

Lemma checkSuBinary_probe : probe_like root_probe checkSuBinary.
Proof. unfold checkSuBinary, su_at. probe_tac. Qed.

Lemma checkRootProperties_probe : probe_like root_probe checkRootProperties.
Proof. unfold checkRootProperties. probe_tac. Qed.

Lemma checkDangerousPermissions_probe : probe_like root_probe checkDangerousPermissions.
Proof. unfold checkDangerousPermissions. probe_tac. Qed.

Lemma checkLoadedLibraries_probe : probe_like not_runtime checkLoadedLibraries.
Proof. unfold checkLoadedLibraries. probe_tac. Qed.

Lemma checkFridaPort_probe : probe_like not_runtime checkFridaPort.
Proof. unfold checkFridaPort. probe_tac. Qed.

Lemma checkFridaThreads_probe : probe_like not_runtime checkFridaThreads.
Proof. unfold checkFridaThreads, checkFridaThread. probe_tac. Qed.

Lemma checkFridaFiles_probe : probe_like not_runtime checkFridaFiles.
Proof. unfold checkFridaFiles, exists_file. probe_tac. Qed.

Lemma checkFridaInMemory_probe : probe_like not_runtime checkFridaInMemory.
Proof. unfold checkFridaInMemory. probe_tac. Qed.

Lemma checkInlineHook_probe : probe_like not_runtime checkInlineHook.
Proof. unfold checkInlineHook. probe_tac. Qed.

Lemma detectFrida_probe : probe_like not_runtime detectFrida.
Proof.
  unfold detectFrida.
  pose proof checkFridaPort_probe. pose proof checkFridaThreads_probe.
  pose proof checkFridaFiles_probe. pose proof checkFridaInMemory_probe.
  pose proof checkInlineHook_probe.
  repeat first [ apply probe_ret | apply probe_or_probe; assumption
               | apply probe_bind; [| intros ?] ].
Qed.

Lemma checkSuspiciousStrings_probe : probe_like not_runtime checkSuspiciousStrings.
Proof. unfold checkSuspiciousStrings. probe_tac. Qed.

Lemma checkLdPreload_probe : probe_like not_runtime checkLdPreload.
Proof. unfold checkLdPreload. probe_tac. Qed.

Lemma checkEmulatorCpu_probe : probe_like not_runtime checkEmulatorCpu.
Proof. unfold checkEmulatorCpu. probe_tac. Qed.

Lemma checkQemuFiles_probe : probe_like not_runtime checkQemuFiles.
Proof. unfold checkQemuFiles, exists_file. probe_tac. Qed.

Lemma nativeCheckHook_probe : probe_like not_runtime nativeCheckHook.
Proof.
  unfold nativeCheckHook.
  pose proof checkLoadedLibraries_probe. pose proof detectFrida_probe.
  pose proof checkSuspiciousStrings_probe. pose proof checkLdPreload_probe.
  repeat first [ apply probe_ret | apply probe_or_probe; assumption
               | apply probe_bind; [| intros ?] ].
Qed.

Lemma nativeCheckEmulator_probe : probe_like not_runtime nativeCheckEmulator.
Proof.
  unfold nativeCheckEmulator.
  pose proof checkEmulatorCpu_probe. pose proof checkQemuFiles_probe.
  repeat first [ apply probe_ret | apply probe_or_probe; assumption
               | apply probe_bind; [| intros ?] ].
Qed.

Lemma verifyProcessIntegrity_probe : probe_like gate_event verifyProcessIntegrity.
Proof. unfold verifyProcessIntegrity. probe_tac. Qed.

Lemma verifySoLoadPath_probe : probe_like gate_event verifySoLoadPath.
Proof. unfold verifySoLoadPath. probe_tac. Qed.

Lemma find_package_frame_gate budget frames :
  gate_like gate_event (find_package_frame budget frames).
Proof.
  revert frames. induction budget as [| budget IH]; intros [| className rest]; simpl;
    try apply gate_ret.
  gate_tac. apply IH.
Qed.

Lemma verifyCallerIntegrity_gate env : gate_like gate_event (verifyCallerIntegrity env).
Proof.
  unfold verifyCallerIntegrity.
  apply gate_bind; [apply gate_get_g_jvm |]. intros jvm.
  destruct env as [env |]; [| apply gate_ret].
  destruct (env_GetJavaVM env) as [status vm].
  destruct (env_stackTrace env) as [frames |];
    repeat first
      [ apply gate_ret
      | apply find_package_frame_gate
      | apply gate_jni; reflexivity
      | apply gate_bind; [| intros ?]
      | match goal with
        | |- gate_like _ (if ?x then _ else _) => destruct x
        end ].
Qed.

Lemma verifyNativeCall_gate env : gate_like gate_event (verifyNativeCall env).
Proof.
  unfold verifyNativeCall.
  apply gate_bind; [apply probe_gate, verifyProcessIntegrity_probe |]. intros [|]; simpl;
    [| apply gate_ret].
  apply gate_bind; [apply probe_gate, verifySoLoadPath_probe |]. intros [|]; simpl;
    [| apply gate_ret].
  apply gate_bind; [apply verifyCallerIntegrity_gate |]. intros [|]; apply gate_ret.
Qed.

(** ** The root category and the gate *)

Lemma gate_event_not_root_probe e : gate_event e -> is_root_probe_event e = false.
Proof. unfold gate_event. destruct e; simpl; congruence. Qed.

Lemma nativeCheckRoot_gate_failed env sys p :
  result (verifyNativeCall env sys p) = Returned false ->
  nativeCheckRoot env sys p = (Returned true, final (verifyNativeCall env sys p)).
Proof.
  destruct (verifyNativeCall env sys p) as [r p'] eqn:E. simpl. intros ->.
  unfold nativeCheckRoot. by rewrite (bind_returned _ _ _ _ _ _ E).
Qed.

(** C1: when the caller-integrity gate fails, [nativeCheckRoot] returns
    true at once: it ends in the state the gate left, and nothing it has
    logged is a call of a root-specific probe ([stat], property store,
    [access]). *)
Theorem gate_failure_reports_root_without_probing env sys p :
  result (verifyNativeCall env sys p) = Returned false ->
  result (nativeCheckRoot env sys p) = Returned true /\
  final (nativeCheckRoot env sys p) = final (verifyNativeCall env sys p) /\
  exists evs,
    final (nativeCheckRoot env sys p) = append_log evs p /\
    Forall (fun e => is_root_probe_event e = false) evs.
Proof.
  intros Hfail. rewrite (nativeCheckRoot_gate_failed _ _ _ Hfail).
  split; [done |]. split; [done |].
  destruct (verifyNativeCall_gate env sys p) as (a & evs & Hall & Heq).
  exists evs. rewrite Heq. split; [done |].
  eapply Forall_impl; [exact Hall |]. apply gate_event_not_root_probe.
Qed.

Lemma gate_failure_reports_root_witness :
  result (verifyNativeCall None clean_system fresh_proc) = Returned false /\
  result (nativeCheckRoot None clean_system fresh_proc) = Returned true.
Proof.
  split; [reflexivity |].
  apply (gate_failure_reports_root_without_probing None clean_system fresh_proc).
  reflexivity.
Defined.

(** ** What the gate decides *)

Lemma find_package_frame_eq budget frames sys p :
  exists evs,
    find_package_frame budget frames sys p =
    (Returned (existsb (fun c => Str.strstr c package) (take budget frames)),
     append_log evs p).
Proof.
  revert frames p. induction budget as [| budget IH]; intros frames p.
  - exists []. destruct frames; simpl; unfold mret, M_ret; by rewrite append_log_nil.
  - destruct frames as [| className rest].
    + exists []. simpl. unfold mret, M_ret. by rewrite append_log_nil.
    + simpl. unfold mbind, M_bind, jni, emit. simpl.
      destruct (Str.strstr className package); simpl.
      * eexists. unfold mret, M_ret. by rewrite !append_log_app.
      * match goal with |- context [find_package_frame budget rest sys ?q] =>
          destruct (IH rest q) as (evs & ->) end.
        eexists. by rewrite !append_log_app.
Qed.

Lemma verifyProcessIntegrity_result sys p :
  result (verifyProcessIntegrity sys p) = Returned (process_ok sys).
Proof.
  unfold verifyProcessIntegrity, process_ok, ifstream, mbind, M_bind. rewrite observe_eq.
  destruct (sys_files sys !! "/proc/self/cmdline") as [content |]; [| done].
  by destruct (Str.strstr _ _).
Qed.

Lemma verifySoLoadPath_result sys p :
  result (verifySoLoadPath sys p) = Returned (load_path_ok sys).
Proof.
  unfold verifySoLoadPath, load_path_ok, dladdr, mbind, M_bind. rewrite observe_eq.
  destruct (sys_dladdr sys) as [[soPath |] |]; [| done | done].
  by destruct (Str.strstr soPath "/data/app/"), (Str.strstr soPath package).
Qed.

Lemma verifyCallerIntegrity_result env sys p :
  result (verifyCallerIntegrity env sys p) = Returned (caller_ok env p).
Proof.
  pose proof (find_package_frame_eq 20) as Hscan.
  unfold verifyCallerIntegrity, caller_ok, get_g_jvm, mbind, M_bind.
  generalize dependent (find_package_frame 20). intros scan Hscan.
  destruct env as [env |]; [| done].
  destruct (g_jvm p =? nullptr) eqn:Hjvm; [done |].
  unfold jni, emit. simpl.
  destruct (env_GetJavaVM env) as [status vm]. simpl.
  destruct (status =? JNI_OK); [| done]. simpl.
  destruct (vm =? g_jvm p); [| done]. simpl.
  destruct (env_FindClass env "java/lang/Thread" =? nullptr); [done |]. simpl.
  destruct (env_GetStaticMethodID env "currentThread" =? nullptr); [done |]. simpl.
  destruct (env_GetMethodID env "getStackTrace" =? nullptr); [done |]. simpl.
  destruct (env_stackTrace env) as [frames |]; [| done]. simpl.
  match goal with |- context [scan frames sys ?q] =>
    destruct (Hscan frames sys q) as (evs & ->) end.
  by destruct (existsb _ _).
Qed.

Lemma verifyNativeCall_result env sys p :
  result (verifyNativeCall env sys p) =
  Returned (process_ok sys && load_path_ok sys && caller_ok env p).
Proof.
  unfold verifyNativeCall.
  destruct (verifyProcessIntegrity_probe sys) as (a & evs & _ & Heq).
  pose proof (verifyProcessIntegrity_result sys p) as Ha.
  rewrite Heq in Ha. injection Ha as ->.
  rewrite (bind_returned _ _ _ _ _ _ (Heq p)).
  destruct (process_ok sys); [| done]. simpl.
  destruct (verifySoLoadPath_probe sys) as (b & evs' & _ & Heq').
  pose proof (verifySoLoadPath_result sys (append_log evs p)) as Hb.
  rewrite Heq' in Hb. injection Hb as ->.
  rewrite (bind_returned _ _ _ _ _ _ (Heq' _)).
  destruct (load_path_ok sys); [| done]. simpl.
  destruct (verifyCallerIntegrity_gate env sys (append_log evs' (append_log evs p)))
    as (c & evs'' & _ & Heq'').
  pose proof (verifyCallerIntegrity_result env sys (append_log evs' (append_log evs p))) as Hc.
  rewrite Heq'' in Hc. injection Hc as ->.
  rewrite (bind_returned _ _ _ _ _ _ Heq'').
  by destruct (caller_ok env _).
Qed.

(** Any failure of a sub-check other than an unobtainable stack trace
    fails the gate, and the root category then reports a detection. *)
Lemma sub_check_failure_fails_gate env sys p :
  process_ok sys = false \/ load_path_ok sys = false \/ caller_ok env p = false ->
  result (verifyNativeCall env sys p) = Returned false /\
  result (nativeCheckRoot env sys p) = Returned true.
Proof.
  intros H.
  assert (result (verifyNativeCall env sys p) = Returned false) as Hgate.
  { rewrite verifyNativeCall_result. f_equal.
    destruct H as [-> | [-> | ->]]; [done | |].
    - by rewrite andb_false_r.
    - by rewrite andb_false_r. }
  split; [done |]. by rewrite (nativeCheckRoot_gate_failed _ _ _ Hgate).
Qed.

Lemma missing_runtime_handle_fails_caller env p :
  g_jvm p = nullptr -> caller_ok env p = false.
Proof. intros H. unfold caller_ok. destruct env; [| done]. by rewrite H. Qed.

Lemma foreign_runtime_fails_caller env p :
  snd (env_GetJavaVM env) <> g_jvm p -> caller_ok (Some env) p = false.
Proof.
  intros H. unfold caller_ok. apply Z.eqb_neq in H. rewrite H.
  by rewrite !andb_false_r.
Qed.

Lemma foreign_stack_fails_caller env p frames :
  env_stackTrace env = Some frames ->
  Forall (fun c => Str.strstr c package = false) (take 20 frames) ->
  caller_ok (Some env) p = false.
Proof.
  intros Hst Hall. unfold caller_ok, frames_ok. rewrite Hst.
  assert (existsb (fun c => Str.strstr c package) (take 20 frames) = false) as ->.
  { induction Hall as [| c l Hc _ IH]; simpl; [done |]. by rewrite Hc. }
  by rewrite andb_false_r.
Qed.

(** The stack walk is skipped when the trace is a null array: the verdict
    of [verifyCallerIntegrity] is then that of the runtime-handle checks. *)
Lemma unobtainable_stack_is_not_checked env p :
  env_stackTrace env = None ->
  caller_ok (Some env) p =
  negb (g_jvm p =? nullptr)
  && (fst (env_GetJavaVM env) =? JNI_OK)
  && (snd (env_GetJavaVM env) =? g_jvm p)
  && negb (env_FindClass env "java/lang/Thread" =? nullptr)
  && negb (env_GetStaticMethodID env "currentThread" =? nullptr)
  && negb (env_GetMethodID env "getStackTrace" =? nullptr).
Proof. intros H. unfold caller_ok, frames_ok. rewrite H. by rewrite andb_true_r. Qed.

(** C2: the claim fails on the code. With the runtime handle matching and
    the process and load path those of the application, a call whose
    stack trace cannot be obtained (a null array) passes
    [verifyCallerIntegrity] and the whole gate, and [nativeCheckRoot]
    goes on to report a clean device. *)
Example unobtainable_stack_trace_passes_gate :
  env_stackTrace no_stack_env = None /\
  result (verifyCallerIntegrity (Some no_stack_env) clean_system initialized_proc)
    = Returned true /\
  result (verifyNativeCall (Some no_stack_env) clean_system initialized_proc)
    = Returned true /\
  result (nativeCheckRoot (Some no_stack_env) clean_system initialized_proc)
    = Returned false.
Proof. repeat split; vm_compute; reflexivity. Qed.

(** ** The debugger category *)

Lemma checkTracerPid_eq sys p :
  checkTracerPid sys p = (tracer_verdict sys, append_log [EvOpen status_path] p).
Proof.
  unfold checkTracerPid, tracer_verdict, ifstream, mbind, M_bind. rewrite observe_eq.
  unfold status_path. by destruct (sys_files sys !! "/proc/self/status").
Qed.

Lemma nativeCheckDebugger_eq sys p :
  nativeCheckDebugger sys p = (tracer_verdict sys, append_log [EvOpen status_path] p).
Proof.
  unfold nativeCheckDebugger, or_probe, mbind, M_bind. rewrite checkTracerPid_eq.
  by destruct (tracer_verdict sys) as [[|] | e].
Qed.

(** C3: the claim fails on the code. On a status record whose
    [TracerPid:] line carries no number, [std::stoi] throws
    [std::invalid_argument]; nothing catches it, and
    [nativeCheckDebugger] propagates it instead of returning a boolean. *)
Example malformed_tracer_pid_throws :
  Str.getlines malformed_status = ["Name:" +:+ tab +:+ "app"; "TracerPid:" +:+ tab +:+ "none"] /\
  result (checkTracerPid (with_status clean_system malformed_status) initialized_proc)
    = Thrown invalid_argument /\
  result (nativeCheckDebugger (with_status clean_system malformed_status) initialized_proc)
    = Thrown invalid_argument.
Proof. repeat split; vm_compute; reflexivity. Qed.

Lemma scan_status_cons line rest :
  scan_status (line :: rest) =
  if Str.find_is_0 line "TracerPid:" then
    match Stoi.stoi (Str.substr 10 line) with
    | Returned tracerPid => Returned (negb (tracerPid =? 0))
    | Thrown e => Thrown e
    end
  else scan_status rest.
Proof.
  simpl. destruct (Str.find_is_0 line "TracerPid:"); [| done].
  destruct (Stoi.stoi _) as [v | e]; [| done]. by destruct (negb (v =? 0)).
Qed.

(** On every other content the debugger check returns: it throws only
    where [std::stoi] does. *)
Lemma scan_status_returns_or_stoi_throws lines :
  (exists b, scan_status lines = Returned b) \/
  (exists line e,
     first_tracer_line lines line /\
     Stoi.stoi (Str.substr 10 line) = Thrown e /\
     scan_status lines = Thrown e).
Proof.
  induction lines as [| l rest IH]; [left; by exists false |].
  rewrite scan_status_cons.
  destruct (Str.find_is_0 l "TracerPid:") eqn:Hl.
  - destruct (Stoi.stoi (Str.substr 10 l)) as [v | e] eqn:Hv.
    + left. by eexists.
    + right. exists l, e. repeat split; try done. exists [], rest. by repeat split.
  - destruct IH as [Hret | (line & e & (before & after & -> & Hb & Hline) & H2 & H3)];
      [by left |].
    right. exists line, e. repeat split; try done.
    exists (l :: before), after. repeat split; try done. by constructor.
Qed.

Lemma nativeCheckDebugger_returns_or_stoi_throws sys p :
  (exists b, result (nativeCheckDebugger sys p) = Returned b) \/
  (exists content line e,
     sys_files sys !! status_path = Some content /\
     first_tracer_line (Str.getlines content) line /\
     Stoi.stoi (Str.substr 10 line) = Thrown e /\
     result (nativeCheckDebugger sys p) = Thrown e).
Proof.
  rewrite nativeCheckDebugger_eq. unfold tracer_verdict, result. cbn [fst].
  destruct (sys_files sys !! status_path) as [content |] eqn:Hfile; [| left; eauto].
  destruct (scan_status_returns_or_stoi_throws (Str.getlines content))
    as [Hret | (line & e & H1 & H2 & H3)]; [by left |].
  right. by exists content, line, e.
Qed.

Lemma scan_status_true lines :
  scan_status lines = Returned true <->
  exists line tracerPid,
    first_tracer_line lines line /\
    Stoi.stoi (Str.substr 10 line) = Returned tracerPid /\
    tracerPid <> 0.
Proof.
  induction lines as [| l rest IH].
  - split; [done |]. intros (line & v & (before & after & Heq & _) & _).
    by destruct before.
  - rewrite scan_status_cons. destruct (Str.find_is_0 l "TracerPid:") eqn:Hl.
    + split.
      * destruct (Stoi.stoi (Str.substr 10 l)) as [v | e] eqn:Hv; [| done].
        intros [= Hnz]. exists l, v. repeat split; try done.
        -- exists [], rest. by repeat split.
        -- apply negb_true_iff, Z.eqb_neq in Hnz. done.
      * intros (line & v & (before & after & Heq & Hb & Hline) & Hv & Hnz).
        destruct before as [| b before].
        -- injection Heq as <- _. rewrite Hv. f_equal.
           by apply negb_true_iff, Z.eqb_neq.
        -- injection Heq as <- _. apply Forall_cons in Hb as [Hb _]. congruence.
    + rewrite IH. split.
      * intros (line & v & (before & after & -> & Hb & Hline) & Hv & Hnz).
        exists line, v. repeat split; try done.
        exists (l :: before), after. repeat split; try done. by constructor.
      * intros (line & v & (before & after & Heq & Hb & Hline) & Hv & Hnz).
        destruct before as [| b before].
        -- injection Heq as <- _. congruence.
        -- injection Heq as <- ->. apply Forall_cons in Hb as [_ Hb].
           exists line, v. repeat split; try done. by exists before, after.
Qed.

(** C5: [nativeCheckDebugger] returns true exactly when the status record
    can be read and its [TracerPid:] field (the first line that starts
    with it) parses to a non-zero number. The status record is the only
    surface the call consults, and two systems with the same status
    record get the same verdict. *)
Theorem debugger_verdict_is_tracer_pid sys p :
  (result (nativeCheckDebugger sys p) = Returned true <->
   exists content line tracerPid,
     sys_files sys !! status_path = Some content /\
     first_tracer_line (Str.getlines content) line /\
     Stoi.stoi (Str.substr 10 line) = Returned tracerPid /\
     tracerPid <> 0) /\
  final (nativeCheckDebugger sys p) = append_log [EvOpen status_path] p /\
  (forall sys' p',
     sys_files sys' !! status_path = sys_files sys !! status_path ->
     result (nativeCheckDebugger sys' p') = result (nativeCheckDebugger sys p)).
Proof.
  rewrite nativeCheckDebugger_eq. unfold result, final. cbn [fst snd].
  split; [| split; [done |]].
  - unfold tracer_verdict.
    destruct (sys_files sys !! status_path) as [content |] eqn:Hfile.
    + rewrite scan_status_true. split.
      * intros (line & v & H). by exists content, line, v.
      * intros (content' & line & v & [= <-] & H). by exists line, v.
    + split; [done |]. by intros (content' & line & v & [=] & _).
  - intros sys' p' Hsame. rewrite nativeCheckDebugger_eq. cbn [fst].
    unfold tracer_verdict. by rewrite Hsame.
Qed.

Lemma debugger_verdict_witness :
  result (nativeCheckDebugger (with_status clean_system (status_with "4242")) fresh_proc)
    = Returned true /\
  result (nativeCheckDebugger clean_system fresh_proc) = Returned false.
Proof.
  split.
  - apply (proj1 (debugger_verdict_is_tracer_pid
                    (with_status clean_system (status_with "4242")) fresh_proc)).
    exists (status_with "4242"), ("TracerPid:" +:+ tab +:+ "4242"), 4242.
    split; [reflexivity |]. split; [| split; [reflexivity | lia]].
    exists ["Name:" +:+ tab +:+ "nvironmentdetector"; "State:" +:+ tab +:+ "R (running)"],
      ["Uid:" +:+ tab +:+ "10234"].
    split; [reflexivity |]. split; [| reflexivity].
    repeat constructor.
  - reflexivity.
Defined.

(** ** The active-attach probe *)

Lemma scan_status_false lines :
  scan_status lines = Returned false <->
  Forall (fun l => Str.find_is_0 l "TracerPid:" = false) lines \/
  exists line,
    first_tracer_line lines line /\ Stoi.stoi (Str.substr 10 line) = Returned 0.
Proof.
  induction lines as [| l rest IH].
  - split; [intros _; left; constructor | done].
  - rewrite scan_status_cons. destruct (Str.find_is_0 l "TracerPid:") eqn:Hl.
    + split.
      * destruct (Stoi.stoi (Str.substr 10 l)) as [v | e] eqn:Hv; [| done].
        intros [= Hz]. apply negb_false_iff, Z.eqb_eq in Hz. subst v.
        right. exists l. split; [| done]. exists [], rest. by repeat split.
      * intros [Hall | (line & (before & after & Heq & Hb & Hline) & Hv)].
        -- apply Forall_cons in Hall as [Hl' _]. congruence.
        -- destruct before as [| b before].
           ++ injection Heq as <- _. by rewrite Hv.
           ++ injection Heq as <- _. apply Forall_cons in Hb as [Hb _]. congruence.
    + rewrite IH. split.
      * intros [Hall | (line & (before & after & -> & Hb & Hline) & Hv)].
        -- left. by constructor.
        -- right. exists line. split; [| done].
           exists (l :: before), after. repeat split; try done. by constructor.
      * intros [Hall | (line & (before & after & Heq & Hb & Hline) & Hv)].
        -- left. by apply Forall_cons in Hall as [_ Hall].
        -- destruct before as [| b before].
           ++ injection Heq as <- _. congruence.
           ++ injection Heq as <- ->. apply Forall_cons in Hb as [_ Hb].
              right. exists line. split; [| done]. by exists before, after.
Qed.

(** The tracer-presence probe reports no evidence in three cases: the
    status record cannot be read, it has no [TracerPid:] line, or that
    line carries the number zero. *)
Lemma tracer_probe_no_evidence sys p :
  result (checkTracerPid sys p) = Returned false <->
  sys_files sys !! status_path = None \/
  exists content,
    sys_files sys !! status_path = Some content /\
    (Forall (fun l => Str.find_is_0 l "TracerPid:" = false) (Str.getlines content) \/
     exists line,
       first_tracer_line (Str.getlines content) line /\
       Stoi.stoi (Str.substr 10 line) = Returned 0).
Proof.
  rewrite checkTracerPid_eq. unfold result, tracer_verdict. cbn [fst].
  destruct (sys_files sys !! status_path) as [content |] eqn:Hfile.
  - rewrite scan_status_false. split.
    + intros H. right. by exists content.
    + intros [Hnone | (content' & [= <-] & H)]; done.
  - split; [by left | done].
Qed.

(** C7: when the tracer-presence probe returns false, [checkPtraceAttach]
    returns false and has made no [ptrace] call; when it returns true,
    [PTRACE_TRACEME] is attempted, its failure is the verdict, and a
    success is followed by [PTRACE_DETACH]. *)
Theorem ptrace_probe_is_gated_on_tracer sys p traced :
  result (checkTracerPid sys p) = Returned traced ->
  result (checkPtraceAttach sys p)
    = Returned (traced && (sys_ptrace sys PTRACE_TRACEME =? -1)) /\
  final (checkPtraceAttach sys p)
    = append_log
        (EvOpen status_path ::
         if traced then
           EvPtrace PTRACE_TRACEME ::
           (if sys_ptrace sys PTRACE_TRACEME =? -1 then [] else [EvPtrace PTRACE_DETACH])
         else []) p.
Proof.
  rewrite checkTracerPid_eq. unfold result, final. cbn [fst snd]. intros Htraced.
  unfold checkPtraceAttach, mbind, M_bind. rewrite checkTracerPid_eq, Htraced.
  destruct traced; cbn [negb andb]; [| done].
  unfold ptrace. rewrite observe_eq.
  destruct (sys_ptrace sys PTRACE_TRACEME =? -1).
  - unfold mret, M_ret. cbn [fst snd]. by rewrite append_log_app.
  - rewrite observe_eq. unfold mret, M_ret. cbn [fst snd]. by rewrite !append_log_app.
Qed.

Lemma ptrace_probe_untraced_witness :
  result (checkTracerPid clean_system fresh_proc) = Returned false /\
  result (checkPtraceAttach clean_system fresh_proc) = Returned false /\
  log (final (checkPtraceAttach clean_system fresh_proc)) = [EvOpen status_path].
Proof.
  split; [reflexivity |].
  destruct (ptrace_probe_is_gated_on_tracer clean_system fresh_proc false) as [H1 H2];
    [reflexivity |].
  split; [exact H1 |]. rewrite H2. reflexivity.
Defined.

(** ** The su-binary probe *)

Lemma first_hit_result {A} (f : A -> M bool) (g : A -> bool) xs sys p :
  (forall x q, result (f x sys q) = Returned (g x)) ->
  result (first_hit f xs sys p) = Returned (existsb g xs).
Proof.
  intros Hf. revert p. induction xs as [| x rest IH]; intros p; [done |].
  simpl. unfold mbind, M_bind. specialize (Hf x p).
  destruct (f x sys p) as [[b | e] q]; simpl in Hf; [| done].
  injection Hf as ->. destruct (g x); [done |]. apply IH.
Qed.

Lemma su_at_result path sys p :
  result (su_at path sys p) = Returned (su_executable sys path).
Proof.
  unfold su_at, su_executable, stat, mbind, M_bind. rewrite observe_eq.
  destruct (sys_stat sys !! path) as [st_mode |]; [| done].
  by destruct (Z.land st_mode S_IXUSR =? 0).
Qed.

Lemma su_scan_spec paths sys p :
  (result (first_hit su_at paths sys p) = Returned true <->
   exists path st_mode,
     In path paths /\
     sys_stat sys !! path = Some st_mode /\
     Z.land st_mode S_IXUSR <> 0) /\
  (result (first_hit su_at paths sys p) = Returned false <->
   forall path,
     In path paths ->
     sys_stat sys !! path = None \/
     exists st_mode, sys_stat sys !! path = Some st_mode /\ Z.land st_mode S_IXUSR = 0).
Proof.
  rewrite (first_hit_result su_at (su_executable sys) paths sys p)
    by (intros; apply su_at_result).
  assert (existsb (su_executable sys) paths = true <->
          exists path st_mode,
            In path paths /\ sys_stat sys !! path = Some st_mode /\
            Z.land st_mode S_IXUSR <> 0) as Hex.
  { rewrite existsb_exists. unfold su_executable. split.
    - intros (path & Hin & Hx).
      destruct (sys_stat sys !! path) as [st_mode |] eqn:Hst; [| done].
      exists path, st_mode. repeat split; try done.
      by apply negb_true_iff, Z.eqb_neq in Hx.
    - intros (path & st_mode & Hin & Hst & Hx). exists path. split; [done |].
      rewrite Hst. by apply negb_true_iff, Z.eqb_neq. }
  split.
  - rewrite <- Hex. split; [by intros [= ->] | by intros ->].
  - split.
    + intros Hres path Hin.
      destruct (sys_stat sys !! path) as [st_mode |] eqn:Hst; [| by left].
      right. exists st_mode. split; [done |].
      destruct (Z.eq_dec (Z.land st_mode S_IXUSR) 0) as [| Hne]; [done |].
      assert (existsb (su_executable sys) paths = true) as Hyes by (apply Hex; eauto).
      rewrite Hyes in Hres. done.
    + intros Hall. f_equal. apply not_true_is_false. intros H.
      apply Hex in H as (path & st_mode & Hin & Hst & Hx).
      destruct (Hall path Hin) as [Hno | (st_mode' & Hst' & Hz)]; congruence.
Qed.

(** C6: [checkSuBinary] returns true exactly when some listed path exists
    with the owner-execute bit set in its mode, and false exactly when
    every listed path is missing or lacks that bit. *)
Theorem su_probe_needs_executable_bit sys p :
  (result (checkSuBinary sys p) = Returned true <->
   exists path st_mode,
     In path suPaths /\
     sys_stat sys !! path = Some st_mode /\
     Z.land st_mode S_IXUSR <> 0) /\
  (result (checkSuBinary sys p) = Returned false <->
   forall path,
     In path suPaths ->
     sys_stat sys !! path = None \/
     exists st_mode, sys_stat sys !! path = Some st_mode /\ Z.land st_mode S_IXUSR = 0).
Proof. unfold checkSuBinary. apply su_scan_spec. Qed.

Lemma su_probe_witness :
  result (checkSuBinary (with_stat clean_system su_installed) fresh_proc) = Returned true /\
  result (checkSuBinary (with_stat clean_system su_remnant) fresh_proc) = Returned false.
Proof.
  split.
  - apply (proj1 (su_probe_needs_executable_bit
                    (with_stat clean_system su_installed) fresh_proc)).
    exists "/sbin/su", 493. split; [| split; [reflexivity | done]].
    simpl. tauto.
  - reflexivity.
Defined.

(** ** The byte-comparison primitive *)

Lemma compare_bytes_true sys a e i n :
  compare_bytes sys a e i n = true <->
  exists k, i <= k < i + Z.of_nat n /\ sys_memory sys (a + k) <> sys_memory sys (e + k).
Proof.
  revert i. induction n as [| n IH]; intros i.
  - simpl. split; [done |]. intros (k & Hk & _). lia.
  - cbn [compare_bytes].
    destruct (Byte.eqb (sys_memory sys (a + i)) (sys_memory sys (e + i))) eqn:Hb; simpl.
    + apply Byte.byte_dec_bl in Hb. rewrite IH. split.
      * intros (k & Hk & Hne). exists k. split; [lia | done].
      * intros (k & Hk & Hne). exists k. split; [| done].
        destruct (decide (k = i)) as [-> |]; [done | lia].
    + apply Byte.eqb_false in Hb. split; [| done].
      intros _. exists i. split; [lia | done].
Qed.

(** C8: for a non-null address, a non-null signature and a positive
    length, [detectFunctionHook] returns true exactly when one of the
    first [len] bytes at the address differs from the byte of the
    signature at the same offset. *)
Theorem detectFunctionHook_iff_some_byte_differs sys funcPtr expectedBytes len :
  funcPtr <> nullptr ->
  expectedBytes <> nullptr ->
  (0 < len)%N ->
  (detectFunctionHook sys funcPtr expectedBytes len = true <->
   exists i,
     0 <= i < Z.of_N len /\
     sys_memory sys (funcPtr + i) <> sys_memory sys (expectedBytes + i)).
Proof.
  intros Hf He Hlen. unfold detectFunctionHook.
  apply Z.eqb_neq in Hf, He. rewrite Hf, He.
  assert ((len =? 0)%N = false) as -> by (apply N.eqb_neq; lia). simpl.
  rewrite compare_bytes_true. rewrite N_nat_Z. done.
Qed.

Lemma detectFunctionHook_witness :
  detectFunctionHook (with_memory clean_system signature_memory) open_addr 0x8000 4 = true.
Proof.
  apply (detectFunctionHook_iff_some_byte_differs
           (with_memory clean_system signature_memory) open_addr 0x8000 4);
    [done | done | done |].
  exists 3. split; [lia |]. vm_compute. discriminate.
Defined.

(** ** The inline-hook probe *)

Lemma byte_at_range sys a : 0 <= byte_at sys a < 256.
Proof.
  unfold byte_at. pose proof (Byte.to_N_bounded (sys_memory sys a)). lia.
Qed.

Lemma lor_below_pow2 a b n :
  0 <= n -> 0 <= a < 2 ^ n -> 0 <= b < 2 ^ n -> 0 <= Z.lor a b < 2 ^ n.
Proof.
  intros Hn Ha Hb. assert (0 <= Z.lor a b) as Hnn by (apply Z.lor_nonneg; lia).
  split; [done |].
  destruct (Z.eq_dec (Z.lor a b) 0) as [-> | Hne]; [lia |].
  apply Z.log2_lt_pow2; [lia |]. rewrite Z.log2_lor by lia.
  destruct (Z.eq_dec a 0) as [-> | Ha0], (Z.eq_dec b 0) as [-> | Hb0].
  - simpl in Hne. done.
  - rewrite Z.max_r by (apply Z.log2_nonneg). apply Z.log2_lt_pow2; lia.
  - rewrite Z.max_l by (apply Z.log2_nonneg). apply Z.log2_lt_pow2; lia.
  - apply Z.max_lub_lt; apply Z.log2_lt_pow2; lia.
Qed.

Lemma read_u32_range sys a : 0 <= read_u32 sys a < 2 ^ 32.
Proof.
  unfold read_u32.
  pose proof (byte_at_range sys a). pose proof (byte_at_range sys (a + 1)).
  pose proof (byte_at_range sys (a + 2)). pose proof (byte_at_range sys (a + 3)).
  rewrite !Z.shiftl_mul_pow2 by lia.
  repeat apply lor_below_pow2; lia.
Qed.

(** C9: with [open] resolved to a non-null address, [checkInlineHook]
    reports a hook exactly when the 32-bit word read there matches the
    unconditional-branch pattern or the load-literal trampoline pattern;
    any other encoding is reported as not hooked. *)
Theorem inline_hook_classification sys p openAddr :
  sys_symbols sys !! "open" = Some openAddr ->
  openAddr <> nullptr ->
  0 <= read_u32 sys openAddr < 2 ^ 32 /\
  (result (checkInlineHook sys p) = Returned true <->
   Z.land (read_u32 sys openAddr) 0xFC000000 = 0x14000000 \/
   Z.land (read_u32 sys openAddr) 0xFF000000 = 0x58000000) /\
  (result (checkInlineHook sys p) = Returned false <->
   Z.land (read_u32 sys openAddr) 0xFC000000 <> 0x14000000 /\
   Z.land (read_u32 sys openAddr) 0xFF000000 <> 0x58000000).
Proof.
  intros Hsym Hnn. split; [apply read_u32_range |].
  unfold checkInlineHook, dlsym, mbind, M_bind. rewrite observe_eq, Hsym.
  cbn [from_option id]. apply Z.eqb_neq in Hnn. rewrite Hnn. unfold peek_u32.
  destruct (Z.eqb_spec (Z.land (read_u32 sys openAddr) 0xFC000000) 0x14000000) as [Hb | Hb].
  - split; split; try done; [by left | by intros [? _]].
  - destruct (Z.eqb_spec (Z.land (read_u32 sys openAddr) 0xFF000000) 0x58000000) as [Hl | Hl].
    + split; split; try done; [by right | by intros [_ ?]].
    + split; split; try done. by intros [? | ?].
Qed.

Lemma inline_hook_witness :
  read_u32 (with_memory clean_system branch_memory) open_addr = 0x14000010 /\
  result (checkInlineHook (with_memory clean_system branch_memory) fresh_proc) = Returned true /\
  read_u32 clean_system open_addr = 0xa9bf7bfd /\
  result (checkInlineHook clean_system fresh_proc) = Returned false.
Proof.
  split; [reflexivity |]. split.
  - apply (inline_hook_classification (with_memory clean_system branch_memory)
             fresh_proc open_addr); [reflexivity | done |].
    left. reflexivity.
  - split; [reflexivity |].
    apply (inline_hook_classification clean_system fresh_proc open_addr);
      [reflexivity | done |].
    split; vm_compute; discriminate.
Defined.

Example ldr_literal_is_classified_hooked :
  read_u32 (with_memory clean_system hooked_memory) open_addr = 0x58000050 /\
  result (checkInlineHook (with_memory clean_system hooked_memory) fresh_proc) = Returned true.
Proof. split; reflexivity. Qed.

(** ** Initialization and the gate *)

(** C10: in a process where [initAntiHook] never ran ([g_jvm] is null),
    [verifyCallerIntegrity] fails and [nativeCheckRoot] returns true
    whatever the system and the caller are. The hook, debugger and
    emulator checks give the same result as in any other process state
    [p'], and none of them touches the module's load path or the JNI,
    the surfaces only the gate uses. *)
Theorem uninitialized_gate_fails_root_only env sys p p' :
  g_jvm p = nullptr ->
  result (verifyCallerIntegrity env sys p) = Returned false /\
  result (nativeCheckRoot env sys p) = Returned true /\
  result (nativeCheckHook sys p) = result (nativeCheckHook sys p') /\
  result (nativeCheckDebugger sys p) = result (nativeCheckDebugger sys p') /\
  result (nativeCheckEmulator sys p) = result (nativeCheckEmulator sys p') /\
  leaves_runtime_alone nativeCheckHook sys p /\
  leaves_runtime_alone nativeCheckDebugger sys p /\
  leaves_runtime_alone nativeCheckEmulator sys p.
Proof.
  intros Hjvm. pose proof (missing_runtime_handle_fails_caller env p Hjvm) as Hcaller.
  split; [by rewrite verifyCallerIntegrity_result, Hcaller |].
  split; [apply sub_check_failure_fails_gate; auto |].
  destruct (nativeCheckHook_probe sys) as (h & hevs & Hh & Hhook).
  destruct (nativeCheckEmulator_probe sys) as (e & eevs & He & Hemu).
  unfold leaves_runtime_alone.
  rewrite !Hhook, !Hemu, !nativeCheckDebugger_eq. unfold result, final. cbn [fst snd].
  repeat split; eauto.
  exists [EvOpen status_path]. split; [done |]. by repeat constructor.
Qed.

Lemma uninitialized_gate_witness :
  g_jvm fresh_proc = nullptr /\
  result (nativeCheckRoot (Some app_env) clean_system fresh_proc) = Returned true /\
  result (nativeCheckRoot (Some app_env) clean_system initialized_proc) = Returned false /\
  result (nativeCheckHook clean_system fresh_proc)
    = result (nativeCheckHook clean_system initialized_proc).
Proof.
  split; [reflexivity |].
  destruct (uninitialized_gate_fails_root_only (Some app_env) clean_system
              fresh_proc initialized_proc) as (_ & Hroot & Hhook & _); [reflexivity |].
  split; [exact Hroot |]. split; [reflexivity | exact Hhook].
Defined.

(** ** The TrustContext over sequences of calls *)

Lemma gate_weaken (P Q : Event -> Prop) {A} (m : M A) :
  (forall e, P e -> Q e) -> gate_like P m -> gate_like Q m.
Proof.
  intros HPQ Hm sys p. destruct (Hm sys p) as (a & evs & Hall & Heq).
  exists a, evs. split; [| done]. eapply Forall_impl; eauto.
Qed.

Lemma nativeCheckRoot_gate env : gate_like any_event (nativeCheckRoot env).
Proof.
  unfold nativeCheckRoot.
  apply gate_bind; [eapply gate_weaken; [| apply verifyNativeCall_gate]; done |].
  intros [|]; simpl; [| apply gate_ret].
  repeat first
    [ apply gate_ret
    | apply gate_bind; [apply probe_gate, probe_or_probe; eapply probe_weaken;
                        [| first [ apply checkSuBinary_probe
                                 | apply checkRootProperties_probe
                                 | apply checkDangerousPermissions_probe ]]; done
                       | intros ?] ].
Qed.

(** The root, hook and emulator checks return a boolean on every system:
    none of the calls they make can throw. (Faults inside the JNI are
    outside this model.) *)
Lemma root_hook_emulator_return env sys p :
  (exists b, result (nativeCheckRoot env sys p) = Returned b) /\
  (exists b, result (nativeCheckHook sys p) = Returned b) /\
  (exists b, result (nativeCheckEmulator sys p) = Returned b).
Proof.
  destruct (nativeCheckRoot_gate env sys p) as (r & revs & _ & ->).
  destruct (nativeCheckHook_probe sys) as (h & hevs & _ & Hh).
  destruct (nativeCheckEmulator_probe sys) as (e & eevs & _ & He).
  rewrite Hh, He. unfold result. cbn [fst]. repeat split; by eexists.
Qed.

Lemma check_call_only_logs c sys p :
  is_init c = false -> exists evs, final (perform c sys p) = append_log evs p.
Proof.
  destruct c as [env context | env | | |]; intros Hc; [done | | | |]; simpl;
    unfold mbind, M_bind.
  - destruct (nativeCheckRoot_gate env sys p) as (a & evs & _ & ->). by exists evs.
  - destruct (nativeCheckHook_probe sys) as (a & evs & _ & Heq). rewrite Heq.
    by exists evs.
  - rewrite nativeCheckDebugger_eq. exists [EvOpen status_path].
    by destruct (tracer_verdict sys).
  - destruct (nativeCheckEmulator_probe sys) as (a & evs & _ & Heq). rewrite Heq.
    by exists evs.
Qed.

Lemma checks_only_log calls p :
  no_init calls = true -> exists evs, run_calls calls p = append_log evs p.
Proof.
  revert p. induction calls as [| [sys c] rest IH]; intros p Hno.
  - exists []. by rewrite append_log_nil.
  - simpl in Hno. apply andb_true_iff in Hno as [Hc Hrest].
    apply negb_true_iff in Hc.
    destruct (check_call_only_logs c sys p Hc) as (evs & Hstep).
    destruct (IH (append_log evs p) Hrest) as (evs' & Hrun).
    exists (evs ++ evs'). unfold run_calls in *. cbn [fold_left fst snd].
    rewrite Hstep, Hrun. by rewrite append_log_app.
Qed.

Lemma initAntiHook_trust env context sys p :
  trust (final (initAntiHook env context sys p))
  = (snd (env_GetJavaVM env), new_context_ref p context).
Proof.
  unfold initAntiHook, new_context_ref, trust, final, mbind, M_bind, jni, emit,
    set_g_jvm, NewGlobalRef, set_g_context. cbn [fst snd].
  by destruct (context =? nullptr).
Qed.

(** C4, as the code has it: after a sequence of calls the TrustContext is
    the one stored by the last [initAntiHook] of the sequence: the check
    calls that follow it leave the runtime handle and the context
    reference as they are, and each [initAntiHook] replaces both. *)
Theorem trust_context_is_that_of_last_init before sys env context after p :
  no_init after = true ->
  trust (run_calls (before ++ (sys, CallInit env context) :: after) p)
  = (snd (env_GetJavaVM env), new_context_ref (run_calls before p) context).
Proof.
  intros Hno. unfold run_calls at 1. rewrite fold_left_app. cbn [fold_left fst snd perform].
  fold (run_calls before p).
  match goal with |- trust (fold_left ?f after ?q) = _ =>
    change (fold_left f after q) with (run_calls after q) end.
  destruct (checks_only_log after
              (final (initAntiHook env context sys (run_calls before p))) Hno)
    as (evs & ->).
  rewrite <- initAntiHook_trust with (sys := sys). done.
Qed.

Lemma trust_context_witness :
  trust (run_calls
           [(clean_system, CallInit app_env 0x9000);
            (clean_system, CallCheckRoot (Some app_env));
            (with_status clean_system malformed_status, CallCheckDebugger);
            (clean_system, CallCheckHook)] fresh_proc)
  = (the_vm, 1).
Proof.
  apply (trust_context_is_that_of_last_init [] clean_system app_env 0x9000
           [(clean_system, CallCheckRoot (Some app_env));
            (with_status clean_system malformed_status, CallCheckDebugger);
            (clean_system, CallCheckHook)] fresh_proc).
  reflexivity.
Defined.

(** C4 as stated fails: a second [initAntiHook] replaces the stored
    context reference, also when it is given the same context object,
    and replaces the stored runtime handle by that of its own [JNIEnv]. *)
Lemma second_init_overwrites_trust_context :
  trust (run_calls [(clean_system, CallInit app_env 0x9000)] fresh_proc) = (the_vm, 1) /\
  trust (run_calls [(clean_system, CallInit app_env 0x9000);
                    (clean_system, CallInit app_env 0x9000)] fresh_proc) = (the_vm, 2) /\
  trust (run_calls [(clean_system, CallInit app_env 0x9000);
                    (clean_system, CallInit other_env 0x9100)] fresh_proc) = (0x5800, 2).
Proof. repeat split; vm_compute; reflexivity. Qed.

(** ** Substring search *)

Lemma append_cons c (a b : string) : String c a +:+ b = String c (a +:+ b).
Proof. reflexivity. Qed.

Lemma append_nil_l (b : string) : "" +:+ b = b.
Proof. reflexivity. Qed.

Lemma append_assoc (a b c : string) : (a +:+ b) +:+ c = a +:+ (b +:+ c).
Proof.
  induction a as [| x a IH]; [done |]. rewrite !append_cons. by f_equal.
Qed.

Lemma prefix_iff pat s :
  String.prefix pat s = true <-> exists b, s = pat +:+ b.
Proof.
  revert s. induction pat as [| c pat IH]; intros s.
  - split; [intros _; by exists s | intros _; by destruct s].
  - destruct s as [| d s]; simpl.
    + split; [done | intros (b & Hb); rewrite append_cons in Hb; discriminate].
    + destruct (Ascii.ascii_dec c d) as [<- | Hne].
      * rewrite IH. split.
        -- intros (b & ->). by exists b.
        -- intros (b & Hb). rewrite append_cons in Hb. injection Hb as ->. by exists b.
      * split; [done |]. intros (b & Hb). rewrite append_cons in Hb.
        injection Hb as Hcd _. congruence.
Qed.

Lemma find_none_no_occurrence s pat :
  Str.find s pat = None -> forall a b, s <> a +:+ pat +:+ b.
Proof.
  induction s as [| c s IH]; intros Hfind a b Heq.
  - cbn [Str.find] in Hfind. destruct (String.prefix pat "") eqn:Hp; [done |].
    assert (String.prefix pat "" = true) as Hyes; [| congruence].
    apply prefix_iff. destruct a; [by exists b |].
    rewrite append_cons in Heq. discriminate.
  - cbn [Str.find] in Hfind. destruct (String.prefix pat (String c s)) eqn:Hp; [done |].
    destruct (Str.find s pat) eqn:Hs; [done |].
    destruct a as [| d a].
    + assert (String.prefix pat (String c s) = true) as Hyes; [| congruence].
      apply prefix_iff. by exists b.
    + rewrite append_cons in Heq. injection Heq as _ Heq. by apply (IH eq_refl a b).
Qed.

(** [s.find(pat) != npos] holds exactly when [pat] occurs in [s]. *)
Lemma contains_iff s pat :
  Str.contains s pat = true <-> exists a b, s = a +:+ pat +:+ b.
Proof.
  unfold Str.contains. split.
  - revert pat. induction s as [| c s IH]; intros pat.
    + cbn [Str.find]. destruct (String.prefix pat "") eqn:Hp; [| done].
      intros _. apply prefix_iff in Hp as (b & Hb). by exists "", b.
    + cbn [Str.find]. destruct (String.prefix pat (String c s)) eqn:Hp.
      * intros _. apply prefix_iff in Hp as (b & Hb). by exists "", b.
      * destruct (Str.find s pat) eqn:Hs; [| done]. intros _.
        destruct (IH pat) as (a & b & ->); [by rewrite Hs |].
        by exists (String c a), b.
  - intros (a & b & ->). destruct (Str.find _ pat) eqn:Hfind; [done |].
    by destruct (find_none_no_occurrence _ _ Hfind a b).
Qed.

(** A text that holds [big] holds every part of [big]. *)
Lemma contains_part s big small :
  Str.contains s big = true -> Str.contains big small = true ->
  Str.contains s small = true.
Proof.
  rewrite !contains_iff. intros (a & b & ->) (c & d & ->).
  exists (a +:+ c), (d +:+ b). by rewrite !append_assoc.
Qed.

Lemma contains_any_iff pats s :
  contains_any pats s = true <->
  exists pat, In pat pats /\ exists a b, s = a +:+ pat +:+ b.
Proof.
  unfold contains_any. rewrite existsb_exists.
  split; intros (pat & Hin & H); exists pat; (split; [done |]); by apply contains_iff.
Qed.

(** Dropping from a list of patterns one that holds another pattern of
    the list changes nothing. *)
Lemma contains_any_drop_redundant pats big small s :
  In small pats -> Str.contains big small = true ->
  contains_any (pats ++ [big]) s = contains_any pats s.
Proof.
  intros Hin Hpart. unfold contains_any. rewrite existsb_app. simpl.
  rewrite orb_false_r. destruct (Str.contains s big) eqn:Hbig; [| by rewrite orb_false_r].
  rewrite orb_true_r. symmetry. apply existsb_exists. exists small.
  split; [done |]. by eapply contains_part.
Qed.

(** ** Loops that stop at the first hit, and flags that do not *)

Lemma returned_true_iff (b : bool) : Returned b = Returned true <-> b = true.
Proof. split; [by intros [= ->] | by intros ->]. Qed.

Lemma returned_inj {A} (a b : A) : Returned a = Returned b -> a = b.
Proof. by intros [= ->]. Qed.

Lemma or_probe_eq flag (m : M bool) sys p a q :
  m sys p = (Returned a, q) -> or_probe flag m sys p = (Returned (a || flag), q).
Proof.
  intros H. unfold or_probe. rewrite (bind_returned _ _ _ _ _ _ H). by destruct a.
Qed.

Lemma first_hit_run {A} (f : A -> M bool) (g : A -> bool) (evs : A -> list Event) xs sys p :
  (forall x q, f x sys q = (Returned (g x), append_log (evs x) q)) ->
  first_hit f xs sys p
  = (Returned (existsb g xs), append_log (flat_map evs (upto_first g xs)) p).
Proof.
  intros Hf. revert p. induction xs as [| x rest IH]; intros p.
  - simpl. unfold mret, M_ret. by rewrite append_log_nil.
  - cbn [first_hit existsb upto_first]. rewrite (bind_returned _ _ _ _ _ _ (Hf x p)).
    destruct (g x); cbn [orb flat_map].
    + unfold mret, M_ret. by rewrite app_nil_r.
    + rewrite IH. by rewrite append_log_app.
Qed.

Lemma flat_map_singleton {A B} (f : A -> B) (l : list A) :
  flat_map (fun x => [f x]) l = map f l.
Proof. induction l as [| x l IH]; [done |]. simpl. by f_equal. Qed.

Lemma exists_file_eq file sys p :
  exists_file file sys p
  = (Returned (bool_decide (is_Some (sys_stat sys !! file))), append_log [EvStat file] p).
Proof. reflexivity. Qed.

Lemma upto_first_prefix {A} (g : A -> bool) xs :
  exists rest, xs = upto_first g xs ++ rest.
Proof.
  induction xs as [| x xs [rest IH]]; [by exists [] |]. simpl.
  destruct (g x); [by exists xs |]. exists rest. simpl. by f_equal.
Qed.

(** ** The hook category *)

Ltac run_flag H :=
  erewrite bind_returned by (apply or_probe_eq; apply H); cbn beta.

Lemma detectFrida_run sys :
  exists port threads files memory inline e1 e2 e3 e4 e5,
    (forall p, checkFridaPort sys p = (Returned port, append_log e1 p)) /\
    (forall p, checkFridaThreads sys p = (Returned threads, append_log e2 p)) /\
    (forall p, checkFridaFiles sys p = (Returned files, append_log e3 p)) /\
    (forall p, checkFridaInMemory sys p = (Returned memory, append_log e4 p)) /\
    (forall p, checkInlineHook sys p = (Returned inline, append_log e5 p)) /\
    (forall p, detectFrida sys p
               = (Returned (port || threads || files || memory || inline),
                  append_log (e1 ++ e2 ++ e3 ++ e4 ++ e5) p)).
Proof.
  destruct (checkFridaPort_probe sys) as (a1 & e1 & _ & H1).
  destruct (checkFridaThreads_probe sys) as (a2 & e2 & _ & H2).
  destruct (checkFridaFiles_probe sys) as (a3 & e3 & _ & H3).
  destruct (checkFridaInMemory_probe sys) as (a4 & e4 & _ & H4).
  destruct (checkInlineHook_probe sys) as (a5 & e5 & _ & H5).
  exists a1, a2, a3, a4, a5, e1, e2, e3, e4, e5. repeat split; try done.
  intros p. unfold detectFrida.
  run_flag H1. run_flag H2. run_flag H3. run_flag H4. run_flag H5.
  unfold mret, M_ret. rewrite !append_log_app, <- ?app_assoc. f_equal. f_equal.
  by destruct a1, a2, a3, a4, a5.
Qed.

(** X1: the hook verdict is the disjunction of its eight probes, and the
    probes are not short-circuited: each of them runs, in the order of
    the source, whatever the earlier ones returned. *)
Theorem hook_verdict_is_or_of_all_probes sys p :
  (result (nativeCheckHook sys p) = Returned true <->
   result (checkLoadedLibraries sys p) = Returned true \/
   result (checkFridaPort sys p) = Returned true \/
   result (checkFridaThreads sys p) = Returned true \/
   result (checkFridaFiles sys p) = Returned true \/
   result (checkFridaInMemory sys p) = Returned true \/
   result (checkInlineHook sys p) = Returned true \/
   result (checkSuspiciousStrings sys p) = Returned true \/
   result (checkLdPreload sys p) = Returned true) /\
  final (nativeCheckHook sys p)
  = final
     (and_then
      (and_then
         (and_then
            (and_then
               (and_then
                  (and_then (and_then checkLoadedLibraries checkFridaPort) checkFridaThreads)
                  checkFridaFiles)
               checkFridaInMemory)
            checkInlineHook)
         checkSuspiciousStrings)
      checkLdPreload sys p).
Proof.
  destruct (checkLoadedLibraries_probe sys) as (libs & e0 & _ & H0).
  destruct (detectFrida_run sys)
    as (a1 & a2 & a3 & a4 & a5 & e1 & e2 & e3 & e4 & e5 & H1 & H2 & H3 & H4 & H5 & HF).
  destruct (checkSuspiciousStrings_probe sys) as (strs & e6 & _ & H6).
  destruct (checkLdPreload_probe sys) as (pre & e7 & _ & H7).
  unfold and_then, final, result. rewrite ?H0, ?H1, ?H2, ?H3, ?H4, ?H5, ?H6, ?H7.
  cbn [fst snd]. rewrite ?H0, ?H1, ?H2, ?H3, ?H4, ?H5, ?H6, ?H7. cbn [fst snd].
  assert (nativeCheckHook sys p
          = (Returned (libs || a1 || a2 || a3 || a4 || a5 || strs || pre),
             append_log (e0 ++ (e1 ++ e2 ++ e3 ++ e4 ++ e5) ++ e6 ++ e7) p)) as ->.
  { unfold nativeCheckHook. run_flag H0. run_flag HF. run_flag H6. run_flag H7.
    unfold mret, M_ret. rewrite !append_log_app, <- ?app_assoc. f_equal. f_equal.
    by destruct libs, a1, a2, a3, a4, a5, strs, pre. }
  cbn [fst snd]. split.
  - rewrite !returned_true_iff, !orb_true_iff. tauto.
  - repeat (rewrite ?H0, ?H1, ?H2, ?H3, ?H4, ?H5, ?H6, ?H7; cbn [fst snd]).
    by rewrite !append_log_app, <- ?app_assoc.
Qed.

(** ** Text scans *)

Lemma contains_occurs s pat : Str.contains s pat = true <-> occurs_in pat s.
Proof. apply contains_iff. Qed.

Lemma contains_any_occurs pats s :
  contains_any pats s = true <-> exists pat, In pat pats /\ occurs_in pat s.
Proof. apply contains_any_iff. Qed.

(** Two lists of patterns, each pattern of one holding a pattern of the
    other, find the same texts. *)
Lemma contains_any_covered pats pats' s :
  forallb (fun pat => existsb (Str.contains pat) pats') pats = true ->
  contains_any pats s = true -> contains_any pats' s = true.
Proof.
  intros Hcov. unfold contains_any. rewrite !existsb_exists.
  intros (pat & Hin & Hpat). rewrite forallb_forall in Hcov.
  apply Hcov, existsb_exists in Hin as (pat' & Hin' & Hpart).
  exists pat'. split; [done |]. by eapply contains_part.
Qed.

Lemma contains_any_same pats pats' s :
  forallb (fun pat => existsb (Str.contains pat) pats') pats = true ->
  forallb (fun pat => existsb (Str.contains pat) pats) pats' = true ->
  contains_any pats s = contains_any pats' s.
Proof.
  intros H1 H2. apply eq_true_iff_eq. split; by apply contains_any_covered.
Qed.

Lemma scan_lines_iff pats lines :
  existsb (contains_any pats) lines = true <->
  exists line pat, In line lines /\ In pat pats /\ occurs_in pat line.
Proof.
  rewrite existsb_exists. split.
  - intros (line & Hin & H). apply contains_any_occurs in H as (pat & Hpat & Hocc).
    by exists line, pat.
  - intros (line & pat & Hin & Hpat & Hocc). exists line. split; [done |].
    apply contains_any_occurs. by exists pat.
Qed.

(** ** The emulator category *)

Lemma checkEmulatorCpu_eq sys p :
  checkEmulatorCpu sys p
  = (Returned (match sys_files sys !! "/proc/cpuinfo" with
               | Some content => contains_any cpuPatterns content
               | None => false
               end),
     append_log [EvOpen "/proc/cpuinfo"] p).
Proof.
  unfold checkEmulatorCpu, ifstream, mbind, M_bind. rewrite observe_eq.
  destruct (sys_files sys !! "/proc/cpuinfo") as [content |]; [| done].
  assert (contains_any cpuPatterns content
          = contains_any ["Intel"; "AMD"; "GenuineIntel"] content
            || contains_any ["goldfish"; "ranchu"; "vbox"] content) as ->.
  { unfold contains_any at 2 3. rewrite <- existsb_app.
    by apply contains_any_same. }
  destruct (contains_any ["Intel"; "AMD"; "GenuineIntel"] content); [done |].
  by destruct (contains_any ["goldfish"; "ranchu"; "vbox"] content).
Qed.

Lemma checkQemuFiles_eq sys p :
  checkQemuFiles sys p
  = (Returned (existsb (fun file => bool_decide (is_Some (sys_stat sys !! file))) qemuFiles),
     append_log
       (map EvStat (upto_first (fun file => bool_decide (is_Some (sys_stat sys !! file)))
                      qemuFiles)) p).
Proof.
  unfold checkQemuFiles.
  rewrite (first_hit_run exists_file _ (fun file => [EvStat file]))
    by (intros; apply exists_file_eq).
  by rewrite flat_map_singleton.
Qed.

(** X2: the emulator verdict is true exactly when the CPU description can
    be read and holds one of [Intel], [AMD], [goldfish], [ranchu],
    [vbox], or [stat] succeeds on one of the five QEMU paths. An
    unreadable CPU description is no evidence, and the [GenuineIntel]
    pattern of the source never decides. *)
Theorem emulator_verdict sys p :
  result (nativeCheckEmulator sys p) = Returned true <->
  (exists content pat,
     sys_files sys !! "/proc/cpuinfo" = Some content /\
     In pat cpuPatterns /\ occurs_in pat content) \/
  (exists file, In file qemuFiles /\ is_Some (sys_stat sys !! file)).
Proof.
  unfold nativeCheckEmulator.
  erewrite bind_returned by (apply or_probe_eq, checkEmulatorCpu_eq). cbn beta.
  erewrite bind_returned by (apply or_probe_eq, checkQemuFiles_eq). cbn beta.
  unfold mret, M_ret, result. cbn [fst].
  rewrite returned_true_iff, orb_false_r, orb_true_iff, existsb_exists. split.
  - intros [(file & Hin & Hst) | Hcpu].
    + right. exists file. split; [done |]. by apply bool_decide_eq_true in Hst.
    + left. destruct (sys_files sys !! "/proc/cpuinfo") as [content |]; [| done].
      apply contains_any_occurs in Hcpu as (pat & Hin & Hocc). by exists content, pat.
  - intros [(content & pat & -> & Hin & Hocc) | (file & Hin & Hst)].
    + right. apply contains_any_occurs. by exists pat.
    + left. exists file. split; [done |]. by apply bool_decide_eq_true.
Qed.

(** ** The probes of the hook category *)

(** X3: [checkSuspiciousStrings] looks at the command line up to its
    first NUL only, the process name: it returns true exactly when that
    text holds [frida], [gdb], [lldb], [ida] or [substrate]. The
    arguments after the name are not searched, and [gdbserver] adds
    nothing to [gdb]. *)
Theorem suspicious_strings_verdict sys p :
  result (checkSuspiciousStrings sys p) = Returned true <->
  exists content pat,
    sys_files sys !! "/proc/self/cmdline" = Some content /\
    In pat argPatterns /\
    occurs_in pat (Str.take_until Ascii.zero content).
Proof.
  unfold checkSuspiciousStrings, ifstream, mbind, M_bind. rewrite observe_eq.
  destruct (sys_files sys !! "/proc/self/cmdline") as [content |].
  - unfold mret, M_ret, result. cbn [fst]. rewrite returned_true_iff.
    rewrite (contains_any_same suspiciousStrs argPatterns) by reflexivity.
    rewrite contains_any_occurs. split.
    + intros (pat & Hin & Hocc). by exists content, pat.
    + intros (content' & pat & [= <-] & Hin & Hocc). by exists pat.
  - split; [done |]. by intros (content & pat & [=] & _).
Qed.

Lemma checkFridaPort_eq sys p :
  checkFridaPort sys p
  = (Returned (existsb (contains_any fridaPorts) (lines_of (sys_files sys !! "/proc/net/tcp"))
               || existsb (contains_any fridaPorts)
                    (lines_of (sys_files sys !! "/proc/net/tcp6"))),
     append_log [EvOpen "/proc/net/tcp"; EvOpen "/proc/net/tcp6"] p).
Proof.
  unfold checkFridaPort, ifstream, mbind, M_bind. rewrite !observe_eq.
  rewrite append_log_app. cbn [app].
  destruct (sys_files sys !! "/proc/net/tcp") as [c4 |];
    destruct (sys_files sys !! "/proc/net/tcp6") as [c6 |]; try done;
    destruct (existsb (contains_any fridaPorts) (lines_of _)); try done;
    by destruct (existsb (contains_any fridaPorts) (lines_of _)).
Qed.

Lemma listing_scan_true_iff pats listing sys :
  existsb (contains_any pats) (lines_of (sys_files sys !! listing)) = true <->
  exists content line pat,
    sys_files sys !! listing = Some content /\
    In line (Str.getlines content) /\ In pat pats /\ occurs_in pat line.
Proof.
  destruct (sys_files sys !! listing) as [content |]; simpl lines_of.
  - rewrite scan_lines_iff. split.
    + intros (line & pat & H). by exists content, line, pat.
    + intros (content' & line & pat & [= <-] & H). by exists line, pat.
  - split; [done |]. by intros (content & line & pat & [=] & _).
Qed.

(** X4: [checkFridaPort] returns true exactly when a line of the IPv4 or
    of the IPv6 socket listing holds one of the seven port strings,
    anywhere in the line; a listing that cannot be opened is skipped,
    the other one is still read. *)
Theorem frida_port_verdict sys p :
  result (checkFridaPort sys p) = Returned true <->
  exists listing content line port,
    In listing ["/proc/net/tcp"; "/proc/net/tcp6"] /\
    sys_files sys !! listing = Some content /\
    In line (Str.getlines content) /\
    In port fridaPorts /\
    occurs_in port line.
Proof.
  rewrite checkFridaPort_eq. unfold result. cbn [fst].
  rewrite returned_true_iff, orb_true_iff, !listing_scan_true_iff. split.
  - intros [(content & line & port & H) | (content & line & port & H)].
    + exists "/proc/net/tcp", content, line, port. split; [by left | done].
    + exists "/proc/net/tcp6", content, line, port. split; [by right; left | done].
  - intros (listing & content & line & port & Hin & H).
    destruct Hin as [<- | [<- | []]]; [left | right]; by exists content, line, port.
Qed.

Lemma checkFridaThread_eq d_name sys p :
  checkFridaThread d_name sys p
  = (Returned (negb (Str.first_char_is "."%char d_name)
               && match sys_files sys !! comm_path d_name with
                  | Some content =>
                      contains_any fridaThreadNames (Str.take_until Str.newline content)
                  | None => false
                  end),
     append_log (if Str.first_char_is "."%char d_name then []
                 else [EvOpen (comm_path d_name)]) p).
Proof.
  unfold checkFridaThread. destruct (Str.first_char_is "."%char d_name).
  - unfold mret, M_ret. by rewrite append_log_nil.
  - unfold ifstream, mbind, M_bind. rewrite observe_eq. fold (comm_path d_name).
    by destruct (sys_files sys !! comm_path d_name).
Qed.

(** X5: [checkFridaThreads] returns true exactly when the task directory
    can be listed and some entry that does not start with a dot has a
    readable [comm] file whose first line holds one of the four thread
    names. Dot entries are never opened and an unreadable [comm] file is
    no evidence. *)
Theorem frida_threads_verdict sys p :
  result (checkFridaThreads sys p) = Returned true <->
  exists entries d_name content name,
    sys_dirs sys !! "/proc/self/task" = Some entries /\
    In d_name entries /\
    Str.first_char_is "."%char d_name = false /\
    sys_files sys !! comm_path d_name = Some content /\
    In name fridaThreadNames /\
    occurs_in name (Str.take_until Str.newline content).
Proof.
  unfold checkFridaThreads, opendir, mbind, M_bind. rewrite observe_eq.
  destruct (sys_dirs sys !! "/proc/self/task") as [entries |].
  - rewrite (first_hit_run checkFridaThread _ _ entries sys _
               (fun d_name q => checkFridaThread_eq d_name sys q)).
    unfold result. cbn [fst]. rewrite returned_true_iff, existsb_exists. split.
    + intros (d_name & Hin & H). apply andb_true_iff in H as [Hdot Hcomm].
      apply negb_true_iff in Hdot.
      destruct (sys_files sys !! comm_path d_name) as [content |] eqn:Hfile; [| done].
      apply contains_any_occurs in Hcomm as (name & Hname & Hocc).
      by exists entries, d_name, content, name.
    + intros (entries' & d_name & content & name & [= <-] & Hin & Hdot & Hfile & Hname & Hocc).
      exists d_name. split; [done |]. rewrite Hdot, Hfile. cbn [negb andb].
      apply contains_any_occurs. by exists name.
  - split; [done |]. by intros (? & ? & ? & ? & [=] & _).
Qed.

Lemma checkFridaFiles_eq sys p :
  checkFridaFiles sys p
  = (Returned (existsb (fun file => bool_decide (is_Some (sys_stat sys !! file))) fridaFiles),
     append_log
       (map EvStat (upto_first (fun file => bool_decide (is_Some (sys_stat sys !! file)))
                      fridaFiles)) p).
Proof.
  unfold checkFridaFiles.
  rewrite (first_hit_run exists_file _ (fun file => [EvStat file]))
    by (intros; apply exists_file_eq).
  by rewrite flat_map_singleton.
Qed.

(** X6: [checkFridaFiles] returns true exactly when [stat] succeeds on
    one of the three server paths, whatever the mode of the file, and it
    calls [stat] on the paths in order up to the first that exists and
    on none after it. *)
Theorem frida_files_verdict sys p :
  (result (checkFridaFiles sys p) = Returned true <->
   exists file, In file fridaFiles /\ is_Some (sys_stat sys !! file)) /\
  (exists tried rest,
     fridaFiles = tried ++ rest /\
     final (checkFridaFiles sys p) = append_log (map EvStat tried) p /\
     (result (checkFridaFiles sys p) = Returned true ->
      exists before file,
        tried = before ++ [file] /\ is_Some (sys_stat sys !! file) /\
        Forall (fun f => sys_stat sys !! f = None) before)).
Proof.
  rewrite checkFridaFiles_eq. unfold result, final. cbn [fst snd].
  set (g := fun file => bool_decide (is_Some (sys_stat sys !! file))).
  split.
  - rewrite returned_true_iff, existsb_exists. split.
    + intros (file & Hin & H). exists file. split; [done |]. by apply bool_decide_eq_true in H.
    + intros (file & Hin & H). exists file. split; [done |]. by apply bool_decide_eq_true.
  - destruct (upto_first_prefix g fridaFiles) as (rest & Hrest).
    exists (upto_first g fridaFiles), rest. split; [done |]. split; [done |].
    rewrite returned_true_iff. generalize fridaFiles. clear Hrest.
    intros files. induction files as [| f files IH]; [done |]. simpl.
    destruct (g f) eqn:Hg; simpl.
    + intros _. exists [], f. split; [done |]. split; [| done].
      by apply bool_decide_eq_true in Hg.
    + intros H. destruct (IH H) as (before & file & -> & Hfile & Hnone).
      exists (f :: before), file. split; [done |]. split; [done |].
      constructor; [| done]. apply bool_decide_eq_false in Hg.
      destruct (sys_stat sys !! f) eqn:Hst; [| done]. by destruct Hg.
Qed.

Lemma maps_scan_eq (pats : list string) sys p :
  (mapsFile ← ifstream "/proc/self/maps";
   match mapsFile with
   | None => mret false
   | Some content => mret (existsb (contains_any pats) (Str.getlines content))
   end) sys p
  = (Returned (existsb (contains_any pats) (lines_of (sys_files sys !! "/proc/self/maps"))),
     append_log [EvOpen "/proc/self/maps"] p).
Proof.
  unfold ifstream, mbind, M_bind. rewrite observe_eq.
  by destruct (sys_files sys !! "/proc/self/maps").
Qed.

Lemma maps_scan_true_iff pats sys :
  existsb (contains_any pats) (lines_of (sys_files sys !! "/proc/self/maps")) = true <->
  exists content line pat,
    sys_files sys !! "/proc/self/maps" = Some content /\
    In line (Str.getlines content) /\ In pat pats /\ occurs_in pat line.
Proof. apply listing_scan_true_iff. Qed.

(** X7: [checkLoadedLibraries] returns true exactly when the memory map
    can be read and one of its lines holds [frida], [xposed],
    [substrate], [libriru] or [lsposed]. *)
Theorem loaded_libraries_verdict sys p :
  result (checkLoadedLibraries sys p) = Returned true <->
  exists content line lib,
    sys_files sys !! "/proc/self/maps" = Some content /\
    In line (Str.getlines content) /\
    In lib suspiciousLibs /\
    occurs_in lib line.
Proof.
  unfold checkLoadedLibraries. rewrite maps_scan_eq. unfold result. cbn [fst].
  rewrite returned_true_iff. apply maps_scan_true_iff.
Qed.

(** X8: whenever [checkFridaInMemory] finds its evidence in the memory
    map, either [checkLoadedLibraries] finds evidence in the same map
    too, or the line that matched holds [linjector]: the [frida] half of
    the probe repeats [checkLoadedLibraries]. *)
Theorem frida_in_memory_repeats_loaded_libraries sys p :
  result (checkFridaInMemory sys p) = Returned true ->
  result (checkLoadedLibraries sys p) = Returned true \/
  exists content line,
    sys_files sys !! "/proc/self/maps" = Some content /\
    In line (Str.getlines content) /\
    occurs_in "linjector" line.
Proof.
  unfold checkFridaInMemory, checkLoadedLibraries. rewrite !maps_scan_eq.
  unfold result. cbn [fst]. rewrite !returned_true_iff, !maps_scan_true_iff.
  intros (content & line & pat & Hfile & Hline & Hpat & Hocc).
  destruct Hpat as [<- | [<- | []]].
  - left. exists content, line, "frida". repeat split; try done. by left.
  - right. by exists content, line.
Qed.

Lemma frida_in_memory_witness :
  result (checkFridaInMemory frida_maps_system fresh_proc) = Returned true /\
  (result (checkLoadedLibraries frida_maps_system fresh_proc) = Returned true \/
   exists content line,
     sys_files frida_maps_system !! "/proc/self/maps" = Some content /\
     In line (Str.getlines content) /\
     occurs_in "linjector" line).
Proof.
  split; [reflexivity |].
  apply (frida_in_memory_repeats_loaded_libraries frida_maps_system fresh_proc).
  reflexivity.
Defined.

(** ** The probes of the root category *)

Lemma upto_first_hit {A} (g : A -> bool) xs :
  existsb g xs = true ->
  exists before x,
    upto_first g xs = before ++ [x] /\ g x = true /\ Forall (fun y => g y = false) before.
Proof.
  induction xs as [| x xs IH]; [done |]. simpl. destruct (g x) eqn:Hg; simpl.
  - intros _. by exists [], x.
  - intros H. destruct (IH H) as (before & y & -> & Hy & Hall).
    exists (x :: before), y. repeat split; try done. by constructor.
Qed.

Lemma upto_first_miss {A} (g : A -> bool) xs :
  existsb g xs = false -> upto_first g xs = xs.
Proof.
  induction xs as [| x xs IH]; [done |]. simpl. destruct (g x); [done |].
  simpl. intros H. by rewrite IH.
Qed.

Lemma strcmp_eq_iff a b :
  Str.strcmp_eq a b = true <-> Str.c_str a = Str.c_str b.
Proof. unfold Str.strcmp_eq. apply String.eqb_eq. Qed.

Lemma checkRootProperties_result sys p :
  result (checkRootProperties sys p)
  = Returned (String.eqb (prop_value sys "ro.debuggable") "1"
              || String.eqb (prop_value sys "ro.secure") "0"
              || Str.contains (prop_value sys "ro.build.tags") "test-keys").
Proof.
  unfold checkRootProperties, system_property_get, mbind, M_bind. rewrite observe_eq.
  change (Str.strcmp_eq (default "" (sys_props sys !! "ro.debuggable")) "1")
    with (String.eqb (prop_value sys "ro.debuggable") "1").
  destruct (String.eqb (prop_value sys "ro.debuggable") "1"); [done |].
  rewrite observe_eq.
  change (Str.strcmp_eq (default "" (sys_props sys !! "ro.secure")) "0")
    with (String.eqb (prop_value sys "ro.secure") "0").
  destruct (String.eqb (prop_value sys "ro.secure") "0"); [done |].
  rewrite observe_eq.
  change (Str.strstr (default "" (sys_props sys !! "ro.build.tags")) "test-keys")
    with (Str.contains (prop_value sys "ro.build.tags") "test-keys").
  by destruct (Str.contains (prop_value sys "ro.build.tags") "test-keys").
Qed.

(** X9: [checkRootProperties] returns true exactly when [ro.debuggable]
    is [1], or [ro.secure] is [0], or [ro.build.tags] holds [test-keys].
    A property that is not set reads as the empty string and is no
    evidence: with none of the three set the probe returns false. *)
Theorem root_properties_verdict sys p :
  (result (checkRootProperties sys p) = Returned true <->
   prop_value sys "ro.debuggable" = "1" \/
   prop_value sys "ro.secure" = "0" \/
   occurs_in "test-keys" (prop_value sys "ro.build.tags")) /\
  (sys_props sys !! "ro.debuggable" = None ->
   sys_props sys !! "ro.secure" = None ->
   sys_props sys !! "ro.build.tags" = None ->
   result (checkRootProperties sys p) = Returned false).
Proof.
  rewrite checkRootProperties_result. split.
  - rewrite returned_true_iff, !orb_true_iff, !String.eqb_eq, contains_occurs. tauto.
  - unfold prop_value. by intros -> -> ->.
Qed.

Lemma root_properties_witness :
  result (checkRootProperties unset_props_system fresh_proc) = Returned false.
Proof.
  apply (proj2 (root_properties_verdict unset_props_system fresh_proc)); reflexivity.
Defined.

Lemma checkDangerousPermissions_eq sys p :
  checkDangerousPermissions sys p
  = (Returned (existsb (fun path => bool_decide (path ∈ sys_writable sys)) dangerousPaths),
     append_log
       (map EvAccess (upto_first (fun path => bool_decide (path ∈ sys_writable sys))
                        dangerousPaths)) p).
Proof.
  unfold checkDangerousPermissions.
  rewrite (first_hit_run access_W_OK
             (fun path => bool_decide (path ∈ sys_writable sys))
             (fun path => [EvAccess path]))
    by reflexivity.
  by rewrite flat_map_singleton.
Qed.

(** X10: [checkDangerousPermissions] returns true exactly when the
    process may write to [/system], [/system/bin] or [/system/xbin]. It
    asks for the directories in that order and stops at the first one
    that is writable; when none is, it has asked for all three. *)
Theorem dangerous_permissions_verdict sys p :
  (result (checkDangerousPermissions sys p) = Returned true <->
   exists path, In path dangerousPaths /\ path ∈ sys_writable sys) /\
  (result (checkDangerousPermissions sys p) = Returned false ->
   final (checkDangerousPermissions sys p) = append_log (map EvAccess dangerousPaths) p) /\
  (result (checkDangerousPermissions sys p) = Returned true ->
   exists before path after,
     dangerousPaths = before ++ path :: after /\
     path ∈ sys_writable sys /\
     Forall (fun q => q ∉ sys_writable sys) before /\
     final (checkDangerousPermissions sys p)
     = append_log (map EvAccess (before ++ [path])) p).
Proof.
  rewrite checkDangerousPermissions_eq. unfold result, final. cbn [fst snd].
  set (g := fun path => bool_decide (path ∈ sys_writable sys)).
  split; [| split].
  - rewrite returned_true_iff, existsb_exists. split.
    + intros (path & Hin & H). exists path. split; [done |]. by apply bool_decide_eq_true in H.
    + intros (path & Hin & H). exists path. split; [done |]. by apply bool_decide_eq_true.
  - intros H%returned_inj. by rewrite (upto_first_miss g _ H).
  - rewrite returned_true_iff. intros H.
    destruct (upto_first_hit g _ H) as (before & path & Hup & Hpath & Hbefore).
    destruct (upto_first_prefix g dangerousPaths) as (after & Hsplit).
    exists before, path, after. rewrite Hup in Hsplit |- *.
    rewrite <- app_assoc in Hsplit. split; [done |].
    split; [by apply bool_decide_eq_true in Hpath |]. split; [| done].
    eapply Forall_impl; [exact Hbefore |]. intros q Hq. by apply bool_decide_eq_false in Hq.
Qed.

(** X11: when the gate passes, the root verdict is the disjunction of the
    su-binary, system-property and directory-permission probes, and all
    three run in that order after the gate, whatever each returned. *)
Theorem root_verdict_when_gate_passes env sys p :
  result (verifyNativeCall env sys p) = Returned true ->
  (result (nativeCheckRoot env sys p) = Returned true <->
   result (checkSuBinary sys p) = Returned true \/
   result (checkRootProperties sys p) = Returned true \/
   result (checkDangerousPermissions sys p) = Returned true) /\
  final (nativeCheckRoot env sys p)
  = final
      (and_then
         (and_then (and_then (verifyNativeCall env) checkSuBinary) checkRootProperties)
         checkDangerousPermissions sys p).
Proof.
  intros Hgate.
  destruct (verifyNativeCall_gate env sys p) as (ok & e0 & _ & H0).
  rewrite H0 in Hgate. injection Hgate as ->.
  destruct (checkSuBinary_probe sys) as (su & e1 & _ & H1).
  destruct (checkRootProperties_probe sys) as (props & e2 & _ & H2).
  destruct (checkDangerousPermissions_probe sys) as (perms & e3 & _ & H3).
  assert (nativeCheckRoot env sys p
          = (Returned (su || props || perms), append_log (e0 ++ e1 ++ e2 ++ e3) p)) as ->.
  { unfold nativeCheckRoot. rewrite (bind_returned _ _ _ _ _ _ H0). cbn [negb].
    run_flag H1. run_flag H2. run_flag H3.
    unfold mret, M_ret. rewrite !append_log_app, <- ?app_assoc. f_equal. f_equal.
    by destruct su, props, perms. }
  unfold and_then, result, final. rewrite H0. cbn [fst snd].
  rewrite !H1. cbn [fst snd]. rewrite !H2. cbn [fst snd]. rewrite !H3. cbn [fst snd].
  split.
  - rewrite !returned_true_iff, !orb_true_iff. tauto.
  - by rewrite !append_log_app, <- ?app_assoc.
Qed.

Lemma root_verdict_witness :
  result (verifyNativeCall (Some app_env) rooted_system initialized_proc) = Returned true /\
  result (nativeCheckRoot (Some app_env) rooted_system initialized_proc) = Returned true.
Proof.
  split; [reflexivity |].
  apply (proj1 (root_verdict_when_gate_passes (Some app_env) rooted_system initialized_proc
                  eq_refl)).
  left. reflexivity.
Defined.

(** ** The sub-checks of the gate *)

(** X12: the stack walk looks at the first twenty frames and no further:
    when none of them belongs to the application package the caller
    check fails, whatever frames follow, application frames included. *)
Theorem stack_walk_stops_after_20_frames env sys p near far :
  env_stackTrace env = Some (near ++ far) ->
  length near = 20%nat ->
  Forall (fun className => Str.strstr className package = false) near ->
  result (verifyCallerIntegrity (Some env) sys p) = Returned false /\
  result (verifyNativeCall (Some env) sys p) = Returned false.
Proof.
  intros Hstack Hlen Hnear.
  assert (caller_ok (Some env) p = false) as Hcaller.
  { apply (foreign_stack_fails_caller env p (near ++ far) Hstack).
    rewrite take_app_length' by done. done. }
  split.
  - by rewrite verifyCallerIntegrity_result, Hcaller.
  - apply sub_check_failure_fails_gate. auto.
Qed.

Lemma stack_walk_witness :
  In "com.grtsinry43.environmentdetector.MainActivity" deep_stack /\
  result (verifyNativeCall (Some deep_env) clean_system initialized_proc) = Returned false.
Proof.
  split; [simpl; tauto |].
  apply (stack_walk_stops_after_20_frames deep_env clean_system initialized_proc
           (replicate 20 "java.lang.reflect.Method") app_stack);
    [reflexivity | reflexivity | by repeat constructor].
Defined.

Lemma c_str_fgets_name n name rest :
  plain name = true ->
  Str.c_str (Str.fgets n (name +:+ nul +:+ rest)) = Str.truncate n name.
Proof.
  revert n. induction name as [| c name IH]; intros n Hplain.
  - destruct n; [done |]. reflexivity.
  - destruct n; [done |]. cbn [plain] in Hplain.
    apply andb_true_iff in Hplain as [Hc Hname]. apply andb_true_iff in Hc as [Hz Hn].
    apply negb_true_iff in Hz, Hn. rewrite append_cons. cbn [Str.fgets Str.truncate].
    rewrite Hn. cbn [Str.c_str]. rewrite Hz. f_equal. by apply IH.
Qed.

(** X13: of the command line, [verifyProcessIntegrity] examines the
    process name alone, cut to its first 255 characters: the check
    passes exactly when the package identifier occurs somewhere in that
    text. The arguments after the first NUL never matter, and a name that
    merely contains the identifier passes. *)
Theorem process_check_reads_name_only sys p name args :
  plain name = true ->
  sys_files sys !! "/proc/self/cmdline" = Some (name +:+ nul +:+ args) ->
  result (verifyProcessIntegrity sys p) = Returned true <->
  occurs_in package (Str.truncate 255 name).
Proof.
  intros Hplain Hfile. rewrite verifyProcessIntegrity_result. unfold process_ok.
  rewrite Hfile. unfold Str.strstr. rewrite (c_str_fgets_name 255 name args Hplain).
  rewrite returned_true_iff. apply contains_occurs.
Qed.

Lemma process_check_witness :
  result (verifyProcessIntegrity
            (with_files clean_system
               (<["/proc/self/cmdline" :=
                    ("com.example." +:+ package +:+ ".clone") +:+ nul +:+ "--frida"]> ∅))
            fresh_proc)
  = Returned true.
Proof.
  apply (process_check_reads_name_only
           (with_files clean_system
              (<["/proc/self/cmdline" :=
                   ("com.example." +:+ package +:+ ".clone") +:+ nul +:+ "--frida"]> ∅))
           fresh_proc ("com.example." +:+ package +:+ ".clone") "--frida");
    [reflexivity | reflexivity |].
  by exists "com.example.", ".clone".
Defined.

(** X14: [verifySoLoadPath] passes exactly when [dladdr] succeeds with a
    file name in which [/data/app/] occurs and the package identifier
    occurs, each anywhere in the name and in any order. *)
Theorem load_path_check_is_two_substring_tests sys p :
  result (verifySoLoadPath sys p) = Returned true <->
  exists soPath,
    sys_dladdr sys = Some (Some soPath) /\
    occurs_in "/data/app/" (Str.c_str soPath) /\
    occurs_in package (Str.c_str soPath).
Proof.
  rewrite verifySoLoadPath_result, returned_true_iff. unfold load_path_ok.
  destruct (sys_dladdr sys) as [[soPath |] |].
  - unfold Str.strstr. rewrite andb_true_iff, !contains_occurs. split.
    + intros H. by exists soPath.
    + by intros (soPath' & [= <-] & H).
  - split; [done |]. by intros (soPath & [=] & _).
  - split; [done |]. by intros (soPath & [=] & _).
Qed.

(** X15: the gate runs its sub-checks in order and stops at the first
    that fails. When the process check fails, neither [dladdr] nor the
    JNI is called; when it passes and the load-path check fails, the JNI
    is not called. *)
Theorem gate_stops_at_first_failure env sys p :
  (result (verifyProcessIntegrity sys p) = Returned false ->
   verifyNativeCall env sys p
   = (Returned false, append_log [EvOpen "/proc/self/cmdline"] p)) /\
  (result (verifyProcessIntegrity sys p) = Returned true ->
   result (verifySoLoadPath sys p) = Returned false ->
   verifyNativeCall env sys p
   = (Returned false, append_log [EvOpen "/proc/self/cmdline"; EvDladdr] p)).
Proof.
  rewrite verifyProcessIntegrity_result, verifySoLoadPath_result.
  assert (forall q, verifyProcessIntegrity sys q
                    = (Returned (process_ok sys), append_log [EvOpen "/proc/self/cmdline"] q))
    as Hproc.
  { intros q. unfold verifyProcessIntegrity, process_ok, ifstream, mbind, M_bind.
    rewrite observe_eq. destruct (sys_files sys !! "/proc/self/cmdline"); [| done].
    by destruct (Str.strstr _ _). }
  assert (forall q, verifySoLoadPath sys q
                    = (Returned (load_path_ok sys), append_log [EvDladdr] q)) as Hpath.
  { intros q. unfold verifySoLoadPath, load_path_ok, dladdr, mbind, M_bind.
    rewrite observe_eq. destruct (sys_dladdr sys) as [[soPath |] |]; [| done | done].
    by destruct (Str.strstr soPath "/data/app/"), (Str.strstr soPath package). }
  unfold verifyNativeCall. rewrite (bind_returned _ _ _ _ _ _ (Hproc p)). split.
  - by intros [= ->].
  - intros [= ->] [= Hno]. cbn [negb].
    rewrite (bind_returned _ _ _ _ _ _ (Hpath _)), Hno. cbn [negb].
    unfold mret, M_ret. by rewrite append_log_app.
Qed.

Lemma gate_stops_witness :
  verifyNativeCall (Some app_env) foreign_system initialized_proc
  = (Returned false, append_log [EvOpen "/proc/self/cmdline"] initialized_proc).
Proof.
  apply (proj1 (gate_stops_at_first_failure (Some app_env) foreign_system initialized_proc)).
  reflexivity.
Defined.

(** ** The inline-hook probe, byte by byte *)

Lemma land_shiftl_mask x m k :
  0 <= k -> Z.land x (Z.shiftl m k) = Z.shiftl (Z.land (Z.shiftr x k) m) k.
Proof.
  intros Hk. apply Z.bits_inj'. intros n Hn. rewrite Z.land_spec.
  destruct (Z.lt_ge_cases n k).
  - rewrite !Z.shiftl_spec_low by lia. apply andb_false_r.
  - rewrite !Z.shiftl_spec by lia. rewrite Z.land_spec, Z.shiftr_spec by lia.
    do 2 f_equal. lia.
Qed.

Lemma shiftr_small x k : 0 <= x < 2 ^ k -> 0 <= k -> Z.shiftr x k = 0.
Proof. intros Hx Hk. rewrite Z.shiftr_div_pow2 by lia. apply Z.div_small. lia. Qed.

Lemma read_u32_top sys a : Z.shiftr (read_u32 sys a) 24 = byte_at sys (a + 3).
Proof.
  unfold read_u32.
  pose proof (byte_at_range sys a). pose proof (byte_at_range sys (a + 1)).
  pose proof (byte_at_range sys (a + 2)). pose proof (byte_at_range sys (a + 3)).
  rewrite !Z.shiftr_lor.
  rewrite (shiftr_small (byte_at sys a) 24) by lia.
  rewrite !Z.shiftr_shiftl_r by lia.
  rewrite (shiftr_small (byte_at sys (a + 1)) (24 - 8)) by lia.
  rewrite (shiftr_small (byte_at sys (a + 2)) (24 - 16)) by lia.
  change (24 - 24) with 0. rewrite Z.shiftr_0_r. by rewrite !Z.lor_0_l.
Qed.

Lemma shiftl_24_inj u v : Z.shiftl u 24 = Z.shiftl v 24 <-> u = v.
Proof. rewrite !Z.shiftl_mul_pow2 by lia. lia. Qed.

Lemma eqb_shiftl_24 u v : (Z.shiftl u 24 =? Z.shiftl v 24) = (u =? v).
Proof.
  destruct (Z.eqb_spec u v) as [-> | Hne]; [apply Z.eqb_refl |].
  apply Z.eqb_neq. intros Heq. by apply (proj1 (shiftl_24_inj u v)) in Heq.
Qed.

Lemma top_byte_classes (b : Byte.byte) :
  (Z.land (Z.of_N (Byte.to_N b)) 0xFC =? 0x14) || (Z.land (Z.of_N (Byte.to_N b)) 0xFF =? 0x58)
  = existsb (Byte.eqb b) hook_top_bytes.
Proof. destruct b; reflexivity. Qed.

(** X16: once [open] is resolved, the verdict of [checkInlineHook] is
    decided by one byte, the most significant of the little-endian word
    at the address: the probe reports a hook exactly when that byte is
    14, 15, 16, 17 or 58 (hexadecimal). The three lower bytes never
    matter. *)
Theorem inline_hook_reads_top_byte sys p openAddr :
  sys_symbols sys !! "open" = Some openAddr ->
  openAddr <> nullptr ->
  result (checkInlineHook sys p)
  = Returned (existsb (Byte.eqb (sys_memory sys (openAddr + 3))) hook_top_bytes).
Proof.
  intros Hsym Hnn.
  unfold checkInlineHook, dlsym, mbind, M_bind. rewrite observe_eq, Hsym.
  cbn [from_option id]. apply Z.eqb_neq in Hnn. rewrite Hnn. unfold peek_u32.
  rewrite <- top_byte_classes. fold (byte_at sys (openAddr + 3)).
  change 0xFC000000 with (Z.shiftl 0xFC 24). change 0xFF000000 with (Z.shiftl 0xFF 24).
  rewrite !land_shiftl_mask by lia. rewrite read_u32_top.
  change 0x14000000 with (Z.shiftl 0x14 24). change 0x58000000 with (Z.shiftl 0x58 24).
  rewrite !eqb_shiftl_24.
  destruct (Z.land (byte_at sys (openAddr + 3)) 0xFC =? 0x14); [done |].
  by destruct (Z.land (byte_at sys (openAddr + 3)) 0xFF =? 0x58).
Qed.

Lemma inline_hook_top_byte_witness :
  result (checkInlineHook (with_memory clean_system hooked_memory) fresh_proc) = Returned true.
Proof.
  apply (inline_hook_reads_top_byte (with_memory clean_system hooked_memory) fresh_proc
           open_addr); [reflexivity | done].
Defined.

(** ** The byte comparison, over lengths *)

(** X17: [detectFunctionHook] is monotone in the length: a difference
    reported over the first [len] bytes is reported over any longer
    prefix. *)
Theorem detectFunctionHook_monotone sys funcPtr expectedBytes len len' :
  detectFunctionHook sys funcPtr expectedBytes len = true ->
  (len <= len')%N ->
  detectFunctionHook sys funcPtr expectedBytes len' = true.
Proof.
  unfold detectFunctionHook. intros Hdet Hle.
  destruct (funcPtr =? nullptr); [done |]. destruct (expectedBytes =? nullptr); [done |].
  destruct (N.eqb_spec len 0) as [-> | Hlen]; [done |]. simpl in Hdet |- *.
  assert ((len' =? 0)%N = false) as -> by (apply N.eqb_neq; lia).
  apply compare_bytes_true in Hdet as (k & Hk & Hne). apply compare_bytes_true.
  exists k. split; [lia | done].
Qed.

Lemma detectFunctionHook_monotone_witness :
  detectFunctionHook (with_memory clean_system signature_memory) open_addr 0x8000 16 = true.
Proof.
  apply (detectFunctionHook_monotone (with_memory clean_system signature_memory)
           open_addr 0x8000 4 16); [reflexivity | done].
Defined.

(** ** Global references over a run *)

Lemma initAntiHook_global_refs env context sys p :
  global_refs (final (initAntiHook env context sys p))
  = global_refs p ++ (if context =? nullptr then [] else [context]).
Proof.
  unfold initAntiHook, final, mbind, M_bind, jni, emit, set_g_jvm, NewGlobalRef,
    set_g_context. cbn [fst snd].
  destruct (context =? nullptr); cbn [global_refs append_log]; [by rewrite app_nil_r | done].
Qed.

(** X18: every [initAntiHook] with a non-null context adds a JNI global
    reference and no call ever deletes one: after a run, the table holds
    the references it had, followed by one per such initialization, in
    order. Only the last is reachable from [g_context]. *)
Theorem global_refs_accumulate calls p :
  global_refs (run_calls calls p) = global_refs p ++ init_contexts calls.
Proof.
  revert p. induction calls as [| [sys c] rest IH]; intros p.
  - simpl. by rewrite app_nil_r.
  - change (run_calls ((sys, c) :: rest) p)
      with (run_calls rest (final (perform c sys p))).
    rewrite IH. destruct c as [env context | env | | |].
    + cbn [perform init_contexts]. rewrite initAntiHook_global_refs.
      destruct (context =? nullptr); [by rewrite app_nil_r | by rewrite <- app_assoc].
    + destruct (check_call_only_logs (CallCheckRoot env) sys p eq_refl) as (evs & ->). done.
    + destruct (check_call_only_logs CallCheckHook sys p eq_refl) as (evs & ->). done.
    + destruct (check_call_only_logs CallCheckDebugger sys p eq_refl) as (evs & ->). done.
    + destruct (check_call_only_logs CallCheckEmulator sys p eq_refl) as (evs & ->). done.
Qed.

(** ** The status record, line by line *)

Lemma scan_status_skips before line after :
  Forall (fun l => Str.find_is_0 l "TracerPid:" = false) before ->
  Str.find_is_0 line "TracerPid:" = true ->
  scan_status (before ++ line :: after) = scan_status [line].
Proof.
  intros Hbefore Hline. induction Hbefore as [| l before Hl _ IH].
  - cbn [app]. rewrite !scan_status_cons. by rewrite Hline.
  - cbn [app]. rewrite scan_status_cons. by rewrite Hl.
Qed.

(** X19: the scan of the status record stops at the first line that
    starts with [TracerPid:]. What follows that line is never parsed: a
    later [TracerPid:] line cannot raise the verdict, and a later
    malformed one cannot throw. *)
Theorem tracer_scan_stops_at_first_field before line after :
  Forall (fun l => Str.find_is_0 l "TracerPid:" = false) before ->
  Str.find_is_0 line "TracerPid:" = true ->
  scan_status (before ++ line :: after) = scan_status [line].
Proof. apply scan_status_skips. Qed.

Lemma tracer_scan_witness :
  scan_status ["Name:" +:+ tab +:+ "app"; "TracerPid:" +:+ tab +:+ "0";
               "TracerPid:" +:+ tab +:+ "none"; "TracerPid:" +:+ tab +:+ "77"]
  = Returned false.
Proof.
  refine (eq_trans
            (tracer_scan_stops_at_first_field ["Name:" +:+ tab +:+ "app"]
               ("TracerPid:" +:+ tab +:+ "0")
               ["TracerPid:" +:+ tab +:+ "none"; "TracerPid:" +:+ tab +:+ "77"] _ _) _);
    [by repeat constructor | reflexivity | reflexivity].
Defined.

Lemma plain_app a b : plain (a +:+ b) = plain a && plain b.
Proof.
  induction a as [| c a IH]; [done |]. rewrite append_cons. cbn [plain].
  rewrite IH. by rewrite andb_assoc.
Qed.

Lemma getlines_line x rest :
  plain x = true -> Str.getlines (x +:+ String Str.newline rest) = x :: Str.getlines rest.
Proof.
  induction x as [| c x IH]; intros Hplain.
  - reflexivity.
  - cbn [plain] in Hplain. apply andb_true_iff in Hplain as [Hc Hx].
    apply andb_true_iff in Hc as [_ Hn]. apply negb_true_iff in Hn.
    rewrite append_cons. cbn [Str.getlines]. rewrite Hn, (IH Hx). done.
Qed.

Lemma digit_cases d : 0 <= d <= 9 ->
  d = 0 \/ d = 1 \/ d = 2 \/ d = 3 \/ d = 4 \/ d = 5 \/ d = 6 \/ d = 7 \/ d = 8 \/ d = 9.
Proof. lia. Qed.

Ltac each_digit H :=
  apply digit_cases in H;
  repeat (destruct H as [-> | H]); [.. | subst].

Lemma digit_of_digit_char d : 0 <= d <= 9 -> Stoi.digit (digit_char d) = Some d.
Proof. intros H. each_digit H; reflexivity. Qed.

Lemma plain_decimal ds : are_digits ds -> plain (decimal ds) = true.
Proof.
  induction 1 as [| d ds Hd _ IH]; [done |]. cbn [decimal plain]. rewrite IH.
  each_digit Hd; reflexivity.
Qed.

Lemma digits_of_decimal ds acc :
  are_digits ds ->
  Stoi.digits (decimal ds) acc = (length ds, fold_left (fun a d => 10 * a + d) ds acc).
Proof.
  intros Hds. revert acc. induction Hds as [| d ds Hd _ IH]; intros acc; [done |].
  cbn [decimal Stoi.digits]. rewrite (digit_of_digit_char d Hd), IH. done.
Qed.

Lemma fold_digits_nonneg ds acc :
  are_digits ds -> 0 <= acc -> 0 <= fold_left (fun a d => 10 * a + d) ds acc.
Proof.
  intros Hds. revert acc. induction Hds as [| d ds Hd _ IH]; intros acc Hacc; [done |].
  simpl. apply IH. lia.
Qed.

Lemma stoi_tab_digit d rest :
  0 <= d <= 9 ->
  Stoi.stoi (tab +:+ String (digit_char d) rest)
  = let '(_, v) := Stoi.digits rest d in
    if (Stoi.INT_MIN <=? v) && (v <=? Stoi.INT_MAX) then Returned v
    else Thrown out_of_range.
Proof.
  intros H. unfold tab. rewrite append_cons, append_nil_l.
  each_digit H;
    match goal with |- context [digit_char ?d] =>
      let c := eval vm_compute in (digit_char d) in change (digit_char d) with c
    end;
    unfold Stoi.stoi; simpl;
    match goal with |- context [Stoi.digits rest ?acc] =>
      let v := eval vm_compute in acc in change acc with v
    end;
    match goal with |- context [Stoi.digits rest ?acc] => destruct (Stoi.digits rest acc) end;
    reflexivity.
Qed.

Lemma stoi_of_decimal ds :
  ds <> [] -> are_digits ds -> decimal_value ds <= Stoi.INT_MAX ->
  Stoi.stoi (tab +:+ decimal ds) = Returned (decimal_value ds).
Proof.
  intros Hne Hds Hmax. destruct ds as [| d ds]; [done |].
  pose proof (fold_digits_nonneg (d :: ds) 0 Hds (Z.le_refl 0)) as Hnn.
  apply Forall_cons in Hds as [Hd Hds]. unfold decimal_value in *.
  cbn [decimal fold_left] in *. replace (10 * 0 + d) with d in * by lia.
  rewrite (stoi_tab_digit d _ Hd), (digits_of_decimal ds d Hds).
  assert (Stoi.INT_MIN <= 0) by (unfold Stoi.INT_MIN; lia).
  rewrite (proj2 (Z.leb_le _ _)) by lia. by rewrite (proj2 (Z.leb_le _ _)) by lia.
Qed.

Lemma status_with_lines tracer :
  plain tracer = true ->
  Str.getlines (status_with tracer)
  = ["Name:" +:+ tab +:+ "nvironmentdetector";
     "State:" +:+ tab +:+ "R (running)";
     "TracerPid:" +:+ tab +:+ tracer;
     "Uid:" +:+ tab +:+ "10234"].
Proof.
  intros Hplain.
  change (status_with tracer)
    with (("Name:" +:+ tab +:+ "nvironmentdetector") +:+ String Str.newline
          (("State:" +:+ tab +:+ "R (running)") +:+ String Str.newline
           (("TracerPid:" +:+ tab +:+ tracer) +:+ String Str.newline
            (("Uid:" +:+ tab +:+ "10234") +:+ String Str.newline "")))).
  rewrite !getlines_line; try reflexivity.
  by rewrite !plain_app, Hplain.
Qed.

(** X20: on a status record as the kernel writes it, with the tracer
    printed in decimal, the debugger verdict is whether that number is
    non-zero, for every process id up to [INT_MAX]: the record is split,
    the field found and the number parsed back without loss. *)
Theorem kernel_status_round_trip sys p ds :
  ds <> [] ->
  are_digits ds ->
  decimal_value ds <= Stoi.INT_MAX ->
  result (nativeCheckDebugger (with_status sys (status_with (decimal ds))) p)
  = Returned (negb (decimal_value ds =? 0)).
Proof.
  intros Hne Hds Hmax. rewrite nativeCheckDebugger_eq. unfold result, tracer_verdict.
  cbn [fst]. unfold with_status, with_files, status_path. cbn [sys_files].
  rewrite lookup_insert_eq, (status_with_lines _ (plain_decimal ds Hds)).
  change (scan_status _)
    with (scan_status
            (["Name:" +:+ tab +:+ "nvironmentdetector"; "State:" +:+ tab +:+ "R (running)"]
             ++ ("TracerPid:" +:+ tab +:+ decimal ds) :: ["Uid:" +:+ tab +:+ "10234"])).
  rewrite scan_status_skips; [| by repeat constructor | reflexivity].
  rewrite scan_status_cons.
  change (Str.find_is_0 ("TracerPid:" +:+ tab +:+ decimal ds) "TracerPid:") with true.
  change (Str.substr 10 ("TracerPid:" +:+ tab +:+ decimal ds)) with (tab +:+ decimal ds).
  by rewrite (stoi_of_decimal ds Hne Hds Hmax).
Qed.

Lemma kernel_status_witness :
  result (nativeCheckDebugger (with_status clean_system (status_with "31337")) fresh_proc)
  = Returned true.
Proof.
  apply (kernel_status_round_trip clean_system fresh_proc [3; 1; 3; 3; 7]);
    [done | repeat constructor; lia | vm_compute; discriminate].
Defined.

(** ** The descriptor count *)

Lemma fd_count_fold entries n :
  fold_left (fun n d_name => if negb (Str.first_char_is "."%char d_name) then n + 1 else n)
    entries n
  = n + Z.of_nat (length (counted_entries entries)).
Proof.
  revert n. induction entries as [| d entries IH]; intros n; [simpl; lia |].
  cbn [fold_left counted_entries List.filter]. fold (counted_entries entries).
  rewrite IH. destruct (negb (Str.first_char_is "." d)); cbn [length]; lia.
Qed.

(** X21: [checkAbnormalFd] returns true exactly when the descriptor
    directory can be listed and holds more than 200 entries that do not
    start with a dot; 200 entries are not enough, and a directory that
    cannot be opened is no evidence. *)
Theorem abnormal_fd_threshold sys p :
  result (checkAbnormalFd sys p) = Returned true <->
  exists entries,
    sys_dirs sys !! "/proc/self/fd" = Some entries /\
    (200 < length (counted_entries entries))%nat.
Proof.
  unfold checkAbnormalFd, opendir, mbind, M_bind. rewrite observe_eq.
  destruct (sys_dirs sys !! "/proc/self/fd") as [entries |].
  - rewrite fd_count_fold.
    destruct (Z.ltb_spec 200 (0 + Z.of_nat (length (counted_entries entries)))) as [Hlt | Hge].
    + split; [| done]. intros _. exists entries. split; [done | lia].
    + split; [done |]. intros (entries' & [= <-] & Hlt). lia.
  - split; [done |]. by intros (entries & [=] & _).
Qed.

(** ** The gate as a whole *)

(** X22: the gate passes exactly when its three sub-checks all return
    true: the process check, the load-path check and the caller check. *)
Theorem gate_passes_iff_all_sub_checks_pass env sys p :
  result (verifyNativeCall env sys p) = Returned true <->
  result (verifyProcessIntegrity sys p) = Returned true /\
  result (verifySoLoadPath sys p) = Returned true /\
  result (verifyCallerIntegrity env sys p) = Returned true.
Proof.
  rewrite verifyNativeCall_result, verifyProcessIntegrity_result,
    verifySoLoadPath_result, verifyCallerIntegrity_result.
  rewrite !returned_true_iff, !andb_true_iff. tauto.
Qed.
